(** * MystWell transcription microservice: a shallow embedding

    The service is four Python modules:
      - [utils/config.py]            (module [Config] below)
      - [utils/security.py]          (module [Security])
      - [services/transcription.py]  (module [Transcription])
      - [main.py]                    (module [Main])

    Python [str] values are modelled as [string]: a character is a code
    point below 256, which is exactly what an HTTP header value decodes
    to.  [bytes] values are [list byte].  Exceptions are values of [exn];
    a computation is a pair of the events it performed (file reads and
    closes, service calls, network calls, comparison steps) and either
    the exception it raised or the value it returned.  Logging calls
    never alter control flow and are left out. *)

From Stdlib Require Import String Ascii List NArith Lia Bool.
From stdpp Require Import base option list strings gmap.

Import ListNotations.
Local Open Scope string_scope.

(** ** Python values and exceptions *)

Definition bytes := list Byte.byte.

(** The exception classes the service raises or catches.  [NotFound] is
    a subclass of [GoogleAPICallError] in [google.api_core.exceptions];
    the constructor [GoogleAPICallError] stands for every instance that
    is not a [NotFound]. *)
Inductive exn : Type :=
| HTTPException (status_code : nat) (detail : string)
| EnvironmentError (msg : string)
| AttributeError (msg : string)
| TypeError (msg : string)
| NotFound (message : string)
| GoogleAPICallError (message : string)
| OtherException (msg : string).

(** [str(e)] *)
Definition str_exn (e : exn) : string :=
  match e with
  | HTTPException _ d => d
  | EnvironmentError m | AttributeError m | TypeError m
  | NotFound m | GoogleAPICallError m | OtherException m => m
  end.

Definition HTTP_400_BAD_REQUEST : nat := 400.
Definition HTTP_401_UNAUTHORIZED : nat := 401.
Definition HTTP_500_INTERNAL_SERVER_ERROR : nat := 500.

(** ** Provider data (google.cloud.speech_v2) *)

Inductive AudioEncoding : Type := M4A_AAC.

Record ExplicitDecodingConfig : Type :=
  { encoding : AudioEncoding }.

Record RecognitionConfig : Type :=
  { explicit_decoding_config : ExplicitDecodingConfig;
    language_codes : list string;
    model : string }.

Record RecognizeRequest : Type :=
  { recognizer : string;
    config : RecognitionConfig;
    content : bytes }.

Record SpeechRecognitionAlternative : Type :=
  { transcript : string }.

Record SpeechRecognitionResult : Type :=
  { alternatives : list SpeechRecognitionAlternative }.

(** A response message; [metadata] is the billed duration when the
    provider filled it in.  A proto message is truthy when one of its
    fields is set. *)
Record RecognizeResponse : Type :=
  { results : list SpeechRecognitionResult;
    metadata : option nat }.

(** The client handle: one synchronous remote call. *)
Record SpeechClient : Type :=
  { recognize : RecognizeRequest -> exn + RecognizeResponse }.

(** ** Events and the computation monad *)

Inductive event : Type :=
| EvRead                                        (* audio_file.read() *)
| EvClose                                       (* audio_file.close() *)
| EvTranscribe (audio : bytes) (profile : string)
                                                (* transcribe_audio_v2 entered *)
| EvRecognize (req : RecognizeRequest)          (* speech_client.recognize *)
| EvLenCmp (same : bool)                        (* compare_digest: length test *)
| EvXorStep.                                    (* compare_digest: one byte step *)

Definition M (A : Type) : Type := (list event * (exn + A))%type.

Definition ret {A} (a : A) : M A := ([], inr a).
Definition raise {A} (e : exn) : M A := ([], inl e).
Definition emit (ev : event) : M unit := ([ev], inr tt).

Definition bind {A B} (m : M A) (k : A -> M B) : M B :=
  match m with
  | (t, inl e) => (t, inl e)
  | (t, inr a) => let '(t', r) := k a in ((t ++ t')%list, r)
  end.

(** [try: m  except <e>: h e] *)
Definition try_except {A} (m : M A) (h : exn -> M A) : M A :=
  match m with
  | (t, inl e) => let '(t', r) := h e in ((t ++ t')%list, r)
  | (t, inr a) => (t, inr a)
  end.

(** [try: m  finally: f]; an exception raised by [f] replaces the
    outcome of [m]. *)
Definition try_finally {A} (m : M A) (f : M unit) : M A :=
  let '(t, r) := m in
  match f with
  | (t', inl e) => ((t ++ t')%list, inl e)
  | (t', inr _) => ((t ++ t')%list, r)
  end.

(** Lifting the outcome of an external call. *)
Definition lift {A} (r : exn + A) : M A := ([], r).

Definition trace {A} (m : M A) : list event := fst m.
Definition outcome {A} (m : M A) : exn + A := snd m.

Notation "'do' x <- m ; k" := (bind m (fun x => k))
  (at level 10, x name, m at level 100, k at level 200).
Notation "'run' m ; k" := (bind m (fun _ => k))
  (at level 10, m at level 100, k at level 200).

(** Counting events of one kind in a trace. *)
Definition is_close (ev : event) : bool :=
  match ev with EvClose => true | _ => false end.

Definition is_transcribe (ev : event) : bool :=
  match ev with EvTranscribe _ _ => true | _ => false end.

Definition is_recognize (ev : event) : bool :=
  match ev with EvRecognize _ => true | _ => false end.

Definition count (p : event -> bool) (t : list event) : nat :=
  length (List.filter p t).

(** ** Python built-ins used by the service *)

Module Py.

(** [str.isspace] on code points below 256. *)
Definition isspace (c : ascii) : bool :=
  let n := nat_of_ascii c in
  (((9 <=? n) && (n <=? 13)) || ((28 <=? n) && (n <=? 32))
   || (n =? 133) || (n =? 160))%nat.

Fixpoint lstrip_chars (l : list ascii) : list ascii :=
  match l with
  | c :: l' => if isspace c then lstrip_chars l' else l
  | [] => []
  end.

Definition rstrip_chars (l : list ascii) : list ascii :=
  rev (lstrip_chars (rev l)).

(** [s.strip()] *)
Definition strip (s : string) : string :=
  string_of_list_ascii
    (rstrip_chars (lstrip_chars (list_ascii_of_string s))).

(** [sep.join(l)] *)
Definition join (sep : string) (l : list string) : string :=
  String.concat sep l.

(** Truthiness of a [str]. *)
Definition truthy (s : string) : bool :=
  match s with EmptyString => false | String _ _ => true end.

(** [os.getenv(name, default)] over [os.environ]. *)
Definition getenv (environ : gmap string string) (name : string)
    (default : option string) : option string :=
  match environ !! name with
  | Some v => Some v
  | None => default
  end.

(** A [str] whose code points are all below 128. *)
Definition isascii (s : string) : bool :=
  forallb (fun c => (nat_of_ascii c <? 128)%nat) (list_ascii_of_string s).

End Py.

(** ** utils/config.py *)

Module Config.

Definition get_env_variable (environ : gmap string string)
    (var_name : string) (default : option string) : exn + string :=
  match Py.getenv environ var_name default with
  | None =>
      inl (EnvironmentError
             ("Missing required environment variable: '" ++ var_name ++ "'"))
  | Some value => inr value
  end.

(** The module's globals once its body has run. *)
Record t : Type :=
  { GOOGLE_APPLICATION_CREDENTIALS : option string;
    GOOGLE_SPEECH_RECOGNIZER_NAME : string;
    TRANSCRIPTION_API_KEY : string }.

(** Executing the module body, [environ] being [os.environ] after
    [load_dotenv()]. *)
Definition load (environ : gmap string string) : exn + t :=
  let creds := Py.getenv environ "GOOGLE_APPLICATION_CREDENTIALS" None in
  match get_env_variable environ "GOOGLE_SPEECH_RECOGNIZER_NAME" None with
  | inl e => inl e
  | inr name =>
      match get_env_variable environ "TRANSCRIPTION_API_KEY" None with
      | inl e => inl e
      | inr key =>
          inr {| GOOGLE_APPLICATION_CREDENTIALS := creds;
                 GOOGLE_SPEECH_RECOGNIZER_NAME := name;
                 TRANSCRIPTION_API_KEY := key |}
      end
  end.

End Config.

(** ** secrets.compare_digest

    The timing-insensitive comparison of the interpreter ([_tscmp] in
    [Modules/_operator.c]): after a length test the loop runs over the
    whole of the second argument, OR-ing the XOR of each pair of bytes
    into an accumulator; when the lengths differ the second argument is
    compared with itself and the accumulator starts at 1.  Two [str]
    arguments must both be ASCII, otherwise [TypeError] is raised.  The
    length test and every loop step are recorded as events. *)

Module Secrets.

Definition xor_byte (x y : ascii) : N :=
  N.lxor (N_of_ascii x) (N_of_ascii y).

Fixpoint tscmp_loop (left right : list ascii) (result : N) : M N :=
  match left, right with
  | l :: left', r :: right' =>
      run emit EvXorStep;
      tscmp_loop left' right' (N.lor result (xor_byte l r))
  | _, _ => ret result
  end.

Definition tscmp (a b : list ascii) : M bool :=
  let same := Nat.eqb (length a) (length b) in
  run emit (EvLenCmp same);
  let left := if same then a else b in
  let result := if same then 0%N else 1%N in
  do r <- tscmp_loop left b result;
  ret (N.eqb r 0).

Definition compare_digest (a b : string) : M bool :=
  if Py.isascii a && Py.isascii b
  then tscmp (list_ascii_of_string a) (list_ascii_of_string b)
  else raise (TypeError
                "comparing strings with non-ASCII characters is not supported").

End Secrets.

(** ** utils/security.py *)

Module Security.

(** [not api_key_header] for a value of type [str | None]. *)
Definition falsy (api_key_header : option string) : bool :=
  match api_key_header with
  | None => true
  | Some s => negb (Py.truthy s)
  end.

Definition missing_key : exn :=
  HTTPException HTTP_401_UNAUTHORIZED "Missing API Key in X-API-Key header".

Definition invalid_key : exn :=
  HTTPException HTTP_401_UNAUTHORIZED "Invalid API Key".

Definition validate_api_key (TRANSCRIPTION_API_KEY : string)
    (api_key_header : option string) : M bool :=
  match api_key_header with
  | None => raise missing_key
  | Some key =>
      if negb (Py.truthy key) then raise missing_key
      else
        do equal <- Secrets.compare_digest key TRANSCRIPTION_API_KEY;
        if negb equal then raise invalid_key
        else ret true
  end.

End Security.

(** ** services/transcription.py *)

Module Transcription.

(** The module-level [try: speech_client = SpeechClient()
    except Exception: speech_client = None]; [ctor] is what the
    constructor does in this process. *)
Definition load (ctor : exn + SpeechClient) : option SpeechClient :=
  match ctor with
  | inr client => Some client
  | inl _ => None
  end.

(** What the function reads from its module: the client handle, the
    recognizer name imported from the configuration, and whether the
    installed provider library has the [M4A_AAC] enum member (looking
    it up raises [AttributeError] when it has not). *)
Record globals : Type :=
  { speech_client : option SpeechClient;
    GOOGLE_SPEECH_RECOGNIZER_NAME : string;
    AudioEncoding_M4A_AAC : option AudioEncoding }.

Definition getattr_M4A_AAC (g : globals) : exn + AudioEncoding :=
  match AudioEncoding_M4A_AAC g with
  | Some enc => inr enc
  | None => inl (AttributeError "M4A_AAC")
  end.

Definition client_not_configured : exn :=
  HTTPException HTTP_500_INTERNAL_SERVER_ERROR
    "Transcription service is not properly configured (Speech Client).".

Definition encoding_error : exn :=
  HTTPException HTTP_500_INTERNAL_SERVER_ERROR
    "Transcription service configuration error (Audio Encoding).".

Definition recognizer_error (message : string) : exn :=
  HTTPException HTTP_500_INTERNAL_SERVER_ERROR
    ("Transcription recognizer configuration error: " ++ message).

Definition google_api_error (message : string) : exn :=
  HTTPException HTTP_500_INTERNAL_SERVER_ERROR
    ("Transcription failed due to Google API error: " ++ message).

Definition unexpected_error : exn :=
  HTTPException HTTP_500_INTERNAL_SERVER_ERROR
    "An unexpected error occurred during transcription.".

(** [not response]: a message none of whose fields is set. *)
Definition response_falsy (response : RecognizeResponse) : bool :=
  match results response, metadata response with
  | [], None => true
  | _, _ => false
  end.

(** The generator
    [result.alternatives[0].transcript for result in response.results
     if result.alternatives]. *)
Fixpoint top_transcripts (rs : list SpeechRecognitionResult) : list string :=
  match rs with
  | [] => []
  | result :: rs' =>
      match alternatives result with
      | [] => top_transcripts rs'
      | alternative0 :: _ => transcript alternative0 :: top_transcripts rs'
      end
  end.

Definition build_request (g : globals) (enc : AudioEncoding)
    (audio_content : bytes) : RecognizeRequest :=
  let encoding_config := {| encoding := enc |} in
  let config :=
    {| explicit_decoding_config := encoding_config;
       language_codes := ["en-US"];
       model := "long" |} in
  {| recognizer := GOOGLE_SPEECH_RECOGNIZER_NAME g;
     config := config;
     content := audio_content |}.

Definition transcribe_audio_v2 (g : globals) (audio_content : bytes)
    (profile_id : string) : M string :=
  run emit (EvTranscribe audio_content profile_id);
  match speech_client g with
  | None => raise client_not_configured
  | Some client =>
      do enc <-
        try_except (lift (getattr_M4A_AAC g))
          (fun e => match e with
                    | AttributeError _ => raise encoding_error
                    | _ => raise e
                    end);
      let request := build_request g enc audio_content in
      do response <-
        try_except
          (run emit (EvRecognize request);
           lift (recognize client request))
          (fun e => match e with
                    | NotFound message => raise (recognizer_error message)
                    | GoogleAPICallError message =>
                        raise (google_api_error message)
                    | _ => raise unexpected_error
                    end);
      if response_falsy response
         || match results response with [] => true | _ => false end
      then ret ""
      else
        let transcript :=
          Py.strip (Py.join " " (top_transcripts (results response))) in
        if negb (Py.truthy transcript) then ret ""
        else ret transcript
  end.

End Transcription.

(** ** main.py *)

Module Main.

(** An uploaded file; [read] is the outcome of [await audio_file.read()]. *)
Record UploadFile : Type :=
  { filename : option string;
    content_type : option string;
    read : exn + bytes }.

(** The JSON bodies the service produces. *)
Inductive body : Type :=
| StatusOk                          (* {"status": "ok"} *)
| Transcript (text : string)        (* {"transcript": text} *)
| Detail (detail : string)          (* {"detail": detail} *)
| InternalServerError.              (* the framework's plain 500 *)

Definition health_check : M body := ret StatusOk.

Definition process_transcription (g : Transcription.globals)
    (profile_id : string) (audio_file : UploadFile) : M body :=
  try_finally
    (try_except
       (run emit EvRead;
        do audio_content <- lift (read audio_file);
        match audio_content with
        | [] =>
            raise (HTTPException HTTP_400_BAD_REQUEST "Audio file is empty.")
        | _ :: _ =>
            do transcript <-
              Transcription.transcribe_audio_v2 g audio_content profile_id;
            ret (Transcript transcript)
        end)
       (fun e => match e with
                 | HTTPException _ _ => raise e
                 | _ =>
                     raise (HTTPException HTTP_500_INTERNAL_SERVER_ERROR
                              ("An unexpected error occurred: " ++ str_exn e))
                 end))
    (emit EvClose).

(** *** The application: module loading and request dispatch *)

Record App : Type :=
  { config : Config.t;
    transcription : Transcription.globals }.

(** Importing [main]: [services.transcription] is imported first, and
    its own first import is [utils.config], whose body may raise; the
    client constructor then runs under its [try]. *)
Definition startup (environ : gmap string string)
    (ctor : exn + SpeechClient) (m4a_aac : option AudioEncoding)
  : exn + App :=
  match Config.load environ with
  | inl e => inl e
  | inr cfg =>
      inr {| config := cfg;
             transcription :=
               {| Transcription.speech_client := Transcription.load ctor;
                  Transcription.GOOGLE_SPEECH_RECOGNIZER_NAME :=
                    Config.GOOGLE_SPEECH_RECOGNIZER_NAME cfg;
                  Transcription.AudioEncoding_M4A_AAC := m4a_aac |} |}
  end.

Inductive Request : Type :=
| GET_health
| POST_transcribe (x_api_key : option string) (profile_id : string)
                  (audio_file : UploadFile).

Record Response : Type :=
  { status : nat;
    payload : body }.

(** A route with [dependencies=[Depends(validate_api_key)]] runs the
    dependency first and calls the handler only if it returned. *)
Definition dispatch (app : App) (req : Request) : M body :=
  match req with
  | GET_health => health_check
  | POST_transcribe x_api_key profile_id audio_file =>
      run Security.validate_api_key
            (Config.TRANSCRIPTION_API_KEY (config app)) x_api_key;
      process_transcription (transcription app) profile_id audio_file
  end.

(** The framework's rendering of a handler's outcome. *)
Definition render (r : exn + body) : Response :=
  match r with
  | inr b => {| status := 200; payload := b |}
  | inl (HTTPException code detail) =>
      {| status := code; payload := Detail detail |}
  | inl _ => {| status := 500; payload := InternalServerError |}
  end.

Definition handle (app : App) (req : Request) : list event * Response :=
  let '(t, r) := dispatch app req in (t, render r).

(** Serving a sequence of requests; the module globals are threaded
    through, and no handler assigns them. *)
Definition step (app : App) (req : Request)
  : App * (list event * Response) :=
  (app, handle app req).

Fixpoint serve (app : App) (reqs : list Request)
  : App * list (list event * Response) :=
  match reqs with
  | [] => (app, [])
  | req :: reqs' =>
      let '(app1, out) := step app req in
      let '(app2, outs) := serve app1 reqs' in
      (app2, out :: outs)
  end.

End Main.

(** ** Specification-side notions and sample values *)

(** The validator's contract in the words of the specification: an
    absent header is rejected as missing, a supplied value different
    from the secret is rejected as invalid, and a supplied value equal
    to the secret is accepted. *)
Definition stated_key_contract (secret : string) (header : option string)
    (r : exn + bool) : Prop :=
  match header with
  | None => r = inl Security.missing_key
  | Some value =>
      if String.eqb value secret then exists v, r = inr v
      else r = inl Security.invalid_key
  end.

(** The failures the specification lists for the client: client not
    configured, recognizer not found, provider error, unexpected
    error. *)
Definition stated_failure (e : exn) : Prop :=
  e = Transcription.client_not_configured
  \/ (exists message, e = Transcription.recognizer_error message)
  \/ (exists message, e = Transcription.google_api_error message)
  \/ e = Transcription.unexpected_error.

(** The transcript assembled from a response. *)
Definition assemble (response : RecognizeResponse) : string :=
  Py.strip (Py.join " " (Transcription.top_transcripts (results response))).

(** [text] is the transcript of the first alternative of [result]. *)
Definition top_alternative_text (result : SpeechRecognitionResult)
    (text : string) : Prop :=
  exists alternative rest,
    alternatives result = alternative :: rest
    /\ transcript alternative = text.

(** The results that carry at least one alternative. *)
Definition with_alternatives (rs : list SpeechRecognitionResult)
  : list SpeechRecognitionResult :=
  List.filter
    (fun r => match alternatives r with [] => false | _ :: _ => true end) rs.

(** Sample values for the worked instances below. *)
Definition sample_client (r : exn + RecognizeResponse) : SpeechClient :=
  {| recognize := fun _ => r |}.

Definition sample_globals (client : option SpeechClient)
    (m4a_aac : option AudioEncoding) : Transcription.globals :=
  {| Transcription.speech_client := client;
     Transcription.GOOGLE_SPEECH_RECOGNIZER_NAME :=
       "projects/p/locations/global/recognizers/r";
     Transcription.AudioEncoding_M4A_AAC := m4a_aac |}.

Definition sample_result (texts : list string) : SpeechRecognitionResult :=
  {| alternatives := map (fun t => {| transcript := t |}) texts |}.

Definition sample_response (rs : list (list string)) : RecognizeResponse :=
  {| results := map sample_result rs; metadata := None |}.

Definition sample_audio : bytes := [Byte.x00; Byte.x01].

Definition sample_config : Config.t :=
  {| Config.GOOGLE_APPLICATION_CREDENTIALS := None;
     Config.GOOGLE_SPEECH_RECOGNIZER_NAME :=
       "projects/p/locations/global/recognizers/r";
     Config.TRANSCRIPTION_API_KEY := "s3cret" |}.

Definition sample_app : Main.App :=
  {| Main.config := sample_config;
     Main.transcription :=
       sample_globals
         (Some (sample_client (inr (sample_response [["hello"]]))))
         (Some M4A_AAC) |}.

Definition sample_upload (r : exn + bytes) : Main.UploadFile :=
  {| Main.filename := Some "note.m4a";
     Main.content_type := Some "audio/mp4";
     Main.read := r |}.

Definition sample_environ : gmap string string :=
  <["GOOGLE_SPEECH_RECOGNIZER_NAME" :=
      "projects/p/locations/global/recognizers/r"]>
    (<["TRANSCRIPTION_API_KEY" := "s3cret"]> ∅).

(** ** Further notions used by the properties of the whole pipeline *)

Definition is_read (ev : event) : bool :=
  match ev with EvRead => true | _ => false end.

(** A string made of whitespace only. *)
Definition blank (s : string) : bool :=
  forallb Py.isspace (list_ascii_of_string s).

(** A string that neither starts nor ends with whitespace. *)
Definition trimmed (s : string) : bool :=
  match list_ascii_of_string s with
  | [] => true
  | c :: l => negb (Py.isspace c) && negb (Py.isspace (List.last l c))
  end.

(** The transcript of the first alternative, when there is one. *)
Definition top_text (result : SpeechRecognitionResult) : option string :=
  match alternatives result with
  | [] => None
  | alternative :: _ => Some (transcript alternative)
  end.

(** The status codes the endpoint documents. *)
Definition documented_status (code : nat) : bool :=
  ((code =? 200) || (code =? 400) || (code =? 401) || (code =? 500))%nat.

(** * Properties *)

(** ** The computation monad *)

Lemma trace_bind {A B} (m : M A) (k : A -> M B) :
  trace (bind m k) =
  match outcome m with
  | inl _ => trace m
  | inr a => (trace m ++ trace (k a))%list
  end.
Proof.
  destruct m as [t [e | a]]; simpl; [reflexivity |].
  destruct (k a); reflexivity.
Qed.

Lemma outcome_bind {A B} (m : M A) (k : A -> M B) :
  outcome (bind m k) =
  match outcome m with
  | inl e => inl e
  | inr a => outcome (k a)
  end.
Proof.
  destruct m as [t [e | a]]; simpl; [reflexivity |].
  destruct (k a); reflexivity.
Qed.

Lemma count_app p (t1 t2 : list event) :
  count p (t1 ++ t2)%list = count p t1 + count p t2.
Proof.
  unfold count. rewrite List.filter_app, List.length_app. reflexivity.
Qed.

(** ** The timing-insensitive comparison *)

Lemma N_of_ascii_inj (x y : ascii) : N_of_ascii x = N_of_ascii y -> x = y.
Proof.
  intros H. rewrite <- (ascii_N_embedding x), <- (ascii_N_embedding y).
  now rewrite H.
Qed.

Lemma xor_byte_0 (x y : ascii) : Secrets.xor_byte x y = 0%N <-> x = y.
Proof.
  unfold Secrets.xor_byte. rewrite N.lxor_eq_0_iff. split.
  - apply N_of_ascii_inj.
  - now intros ->.
Qed.

(** The loop makes one step per byte of its right operand whatever the
    bytes are, and its accumulator ends at zero exactly when it started
    at zero and the operands agree everywhere. *)
Lemma tscmp_loop_spec (left right : list ascii) :
  length left = length right ->
  forall result,
  exists r,
    Secrets.tscmp_loop left right result
      = (repeat EvXorStep (length right), inr r)
    /\ (r = 0%N <-> result = 0%N /\ left = right).
Proof.
  revert right. induction left as [| l left IH]; intros [| r right] Hlen acc;
    simpl in Hlen; try discriminate.
  - exists acc. simpl. split; [reflexivity |]. tauto.
  - injection Hlen as Hlen.
    destruct (IH right Hlen (N.lor acc (Secrets.xor_byte l r)))
      as (v & Heq & Hv).
    exists v. split.
    + simpl. rewrite Heq. reflexivity.
    + rewrite Hv, N.lor_eq_0_iff, xor_byte_0. split.
      * intros [[-> ->] ->]. auto.
      * intros [-> [= -> ->]]. auto.
Qed.

Lemma tscmp_spec (a b : list ascii) :
  Secrets.tscmp a b
  = (EvLenCmp (Nat.eqb (length a) (length b))
       :: repeat EvXorStep (length b),
     inr (bool_decide (a = b))).
Proof.
  unfold Secrets.tscmp.
  remember (bool_decide (a = b)) as d eqn:Hd.
  destruct (Nat.eqb (length a) (length b)) eqn:Hlen.
  - apply Nat.eqb_eq in Hlen.
    destruct (tscmp_loop_spec a b Hlen 0%N) as (r & Heq & Hr).
    simpl. rewrite Heq. simpl. rewrite List.app_nil_r. do 2 f_equal. subst d.
    destruct (N.eqb_spec r 0) as [H0 | H0].
    + apply Hr in H0 as [_ H0]. now rewrite bool_decide_eq_true_2.
    + rewrite bool_decide_eq_false_2; [reflexivity |].
      intros E. apply H0, Hr. auto.
  - apply Nat.eqb_neq in Hlen.
    destruct (tscmp_loop_spec b b eq_refl 1%N) as (r & Heq & Hr).
    simpl. rewrite Heq. simpl. rewrite List.app_nil_r. do 2 f_equal. subst d.
    destruct (N.eqb_spec r 0) as [H0 | H0].
    + apply Hr in H0 as [H1 _]. discriminate.
    + rewrite bool_decide_eq_false_2; [reflexivity |].
      intros E. apply Hlen. now rewrite E.
Qed.

Lemma list_ascii_of_string_inj (s1 s2 : string) :
  list_ascii_of_string s1 = list_ascii_of_string s2 -> s1 = s2.
Proof.
  intros H.
  rewrite <- (string_of_list_ascii_of_string s1),
          <- (string_of_list_ascii_of_string s2).
  now rewrite H.
Qed.

Lemma length_list_ascii_of_string (s : string) :
  length (list_ascii_of_string s) = String.length s.
Proof. induction s; simpl; congruence. Qed.

(** On ASCII operands [compare_digest] decides equality, and what it
    does on the way is fixed by the two lengths. *)
Lemma compare_digest_ascii (a b : string) :
  Py.isascii a = true -> Py.isascii b = true ->
  Secrets.compare_digest a b
  = (EvLenCmp (Nat.eqb (String.length a) (String.length b))
       :: repeat EvXorStep (String.length b),
     inr (String.eqb a b)).
Proof.
  intros Ha Hb. unfold Secrets.compare_digest. rewrite Ha, Hb. simpl.
  rewrite tscmp_spec, !length_list_ascii_of_string. do 2 f_equal.
  destruct (String.eqb_spec a b) as [-> | Hne].
  - now rewrite bool_decide_eq_true_2.
  - rewrite bool_decide_eq_false_2; [reflexivity |].
    intros H. now apply Hne, list_ascii_of_string_inj.
Qed.

Lemma compare_digest_non_ascii (a b : string) :
  Py.isascii a && Py.isascii b = false ->
  Secrets.compare_digest a b
  = raise (TypeError
             "comparing strings with non-ASCII characters is not supported").
Proof. intros H. unfold Secrets.compare_digest. now rewrite H. Qed.

(** ** The API key validator *)

Lemma falsy_iff (header : option string) :
  Security.falsy header = true <-> header = None \/ header = Some "".
Proof.
  destruct header as [[| c s] |]; simpl; split; intros H;
    try discriminate; auto; destruct H as [H | H]; discriminate.
Qed.

Lemma validate_api_key_falsy (secret : string) (header : option string) :
  Security.falsy header = true ->
  Security.validate_api_key secret header = raise Security.missing_key.
Proof.
  intros [-> | ->]%falsy_iff; reflexivity.
Qed.

(** A non-empty ASCII header against an ASCII secret: the comparison
    runs, and it alone decides the outcome. *)
Lemma validate_api_key_ascii (secret value : string) :
  value <> "" ->
  Py.isascii value = true -> Py.isascii secret = true ->
  Security.validate_api_key secret (Some value)
  = (EvLenCmp (Nat.eqb (String.length value) (String.length secret))
       :: repeat EvXorStep (String.length secret),
     if String.eqb value secret then inr true
     else inl Security.invalid_key).
Proof.
  intros Hne Hv Hs. unfold Security.validate_api_key.
  destruct value as [| c value]; [congruence |].
  cbn [Py.truthy negb].
  rewrite (compare_digest_ascii _ _ Hv Hs).
  destruct (String.eqb (String c value) secret); cbn;
    now rewrite List.app_nil_r.
Qed.

(** C3, as stated, fails on a header that is present but empty: it is
    answered as a missing key, not as an invalid one, and it is rejected
    even when the configured secret is itself empty. *)
Lemma validate_api_key_empty_header :
  ~ stated_key_contract "s3cret" (Some "")
      (outcome (Security.validate_api_key "s3cret" (Some "")))
  /\ ~ stated_key_contract "" (Some "")
         (outcome (Security.validate_api_key "" (Some ""))).
Proof.
  split; cbn.
  - discriminate.
  - intros [v Hv]. discriminate.
Qed.

(** C3 (amended): a header that is absent or empty is rejected with 401
    and the missing-key message; a non-empty ASCII header checked
    against an ASCII secret is rejected with 401 and the invalid-key
    message when it differs from the secret, and accepted (the
    validator returns [True]) exactly when it equals the secret. *)
Theorem validate_api_key_spec (secret : string) (header : option string) :
  (Security.falsy header = true ->
   Security.validate_api_key secret header
   = ([], inl (HTTPException 401 "Missing API Key in X-API-Key header")))
  /\ (forall value,
        header = Some value -> value <> "" ->
        Py.isascii value = true -> Py.isascii secret = true ->
        (value <> secret ->
         outcome (Security.validate_api_key secret header)
         = inl (HTTPException 401 "Invalid API Key"))
        /\ (value = secret ->
            outcome (Security.validate_api_key secret header) = inr true)
        /\ (forall v,
              outcome (Security.validate_api_key secret header) = inr v ->
              value = secret)).
Proof.
  split.
  - apply validate_api_key_falsy.
  - intros value -> Hne Hv Hs.
    rewrite (validate_api_key_ascii _ _ Hne Hv Hs). cbn [outcome snd].
    destruct (String.eqb_spec value secret) as [Heq | Hneq].
    + repeat split; auto. intros H; contradiction.
    + repeat split; try reflexivity; try contradiction. discriminate.
Qed.

Lemma validate_api_key_spec_witness :
  Security.validate_api_key "s3cret" None
  = ([], inl (HTTPException 401 "Missing API Key in X-API-Key header"))
  /\ outcome (Security.validate_api_key "s3cret" (Some "guess"))
     = inl (HTTPException 401 "Invalid API Key")
  /\ outcome (Security.validate_api_key "s3cret" (Some "s3cret")) = inr true.
Proof.
  split; [| split].
  - apply (proj1 (validate_api_key_spec "s3cret" None)). reflexivity.
  - apply (proj2 (validate_api_key_spec "s3cret" (Some "guess")) "guess");
      [reflexivity | discriminate | reflexivity | reflexivity | discriminate].
  - apply (proj2 (validate_api_key_spec "s3cret" (Some "s3cret")) "s3cret");
      [reflexivity | discriminate | reflexivity | reflexivity | reflexivity].
Defined.

(** A header with a byte above 127 is outside the amended contract: the
    comparison raises [TypeError], which is not an HTTP error. *)
Example validate_api_key_non_ascii :
  Security.validate_api_key "s3cret" (Some (String (ascii_of_nat 233) ""))
  = raise (TypeError
             "comparing strings with non-ASCII characters is not supported").
Proof. reflexivity. Qed.

(** C4: the comparison of the header with the secret is a
    timing-insensitive equality check.  It decides equality, and the
    steps it performs (one length test, then one XOR step per byte of
    the secret) are fixed by the lengths of the two strings; two header
    values of one length therefore make the validator perform the same
    steps wherever each first differs from the secret. *)
Theorem api_key_comparison_constant_time (secret h1 h2 : string) :
  Py.isascii secret = true ->
  Py.isascii h1 = true -> Py.isascii h2 = true ->
  h1 <> "" -> h2 <> "" ->
  String.length h1 = String.length h2 ->
  Secrets.compare_digest h1 secret
  = (EvLenCmp (Nat.eqb (String.length h1) (String.length secret))
       :: repeat EvXorStep (String.length secret),
     inr (String.eqb h1 secret))
  /\ trace (Security.validate_api_key secret (Some h1))
     = trace (Security.validate_api_key secret (Some h2)).
Proof.
  intros Hs H1 H2 Hne1 Hne2 Hlen. split.
  - now apply compare_digest_ascii.
  - rewrite (validate_api_key_ascii _ _ Hne1 H1 Hs),
            (validate_api_key_ascii _ _ Hne2 H2 Hs).
    cbn [trace fst]. now rewrite Hlen.
Qed.

Lemma api_key_comparison_constant_time_witness :
  Secrets.compare_digest "x3cret" "s3cret"
  = (EvLenCmp true :: repeat EvXorStep 6, inr false)
  /\ trace (Security.validate_api_key "s3cret" (Some "x3cret"))
     = trace (Security.validate_api_key "s3cret" (Some "s3creX")).
Proof.
  apply (api_key_comparison_constant_time "s3cret" "x3cret" "s3creX");
    try reflexivity; discriminate.
Defined.

(** ** The transcription client *)

Lemma truthy_false (s : string) : Py.truthy s = false -> s = "".
Proof. destruct s; [reflexivity | discriminate]. Qed.

(** The function in normal form: which events it performs and how it
    ends, by the state of the client handle, of the provider library
    and by the outcome of the remote call. *)
Lemma transcribe_audio_v2_cases (g : Transcription.globals)
    (audio_content : bytes) (profile_id : string) :
  Transcription.transcribe_audio_v2 g audio_content profile_id =
  match Transcription.speech_client g with
  | None =>
      ([EvTranscribe audio_content profile_id],
       inl Transcription.client_not_configured)
  | Some client =>
      match Transcription.AudioEncoding_M4A_AAC g with
      | None =>
          ([EvTranscribe audio_content profile_id],
           inl Transcription.encoding_error)
      | Some enc =>
          let request := Transcription.build_request g enc audio_content in
          ([EvTranscribe audio_content profile_id; EvRecognize request],
           match recognize client request with
           | inl (NotFound message) =>
               inl (Transcription.recognizer_error message)
           | inl (GoogleAPICallError message) =>
               inl (Transcription.google_api_error message)
           | inl _ => inl Transcription.unexpected_error
           | inr response => inr (assemble response)
           end)
      end
  end.
Proof.
  unfold Transcription.transcribe_audio_v2, Transcription.getattr_M4A_AAC.
  destruct (Transcription.speech_client g) as [client |]; [| reflexivity].
  destruct (Transcription.AudioEncoding_M4A_AAC g) as [enc |]; [| reflexivity].
  cbn.
  destruct (recognize client _) as [e | response]; [destruct e; reflexivity |].
  unfold assemble.
  destruct response as [rs md]. cbn.
  destruct rs as [| r rs].
  - destruct md; reflexivity.
  - unfold Transcription.response_falsy. cbn.
    destruct (Py.truthy _) eqn:Ht; cbn; [reflexivity |].
    apply truthy_false in Ht. now rewrite Ht.
Qed.

Lemma top_transcripts_all (rs : list SpeechRecognitionResult)
    (texts : list string) :
  Forall2 top_alternative_text rs texts ->
  Transcription.top_transcripts rs = texts.
Proof.
  induction 1 as [| r t rs ts (a & rest & Ha & Ht) _ IH]; simpl.
  - reflexivity.
  - rewrite Ha, Ht, IH. reflexivity.
Qed.

Lemma top_transcripts_with_alternatives (rs : list SpeechRecognitionResult) :
  Forall2 top_alternative_text (with_alternatives rs)
    (Transcription.top_transcripts rs).
Proof.
  induction rs as [| r rs IH]; simpl.
  - constructor.
  - destruct (alternatives r) as [| a rest] eqn:Ha; [exact IH |].
    constructor; [| exact IH]. exists a, rest. auto.
Qed.

(** C1: on a successful provider call the function returns the empty
    string when the response has no results; when [texts] are the first
    alternative's transcripts of the results, one per result and in
    order, it returns them joined by single spaces and trimmed, which is
    the empty string when nothing is left after trimming. *)
Theorem transcribe_audio_v2_assembles (g : Transcription.globals)
    (client : SpeechClient) (enc : AudioEncoding)
    (audio_content : bytes) (profile_id : string)
    (response : RecognizeResponse) :
  Transcription.speech_client g = Some client ->
  Transcription.AudioEncoding_M4A_AAC g = Some enc ->
  recognize client (Transcription.build_request g enc audio_content)
    = inr response ->
  let result :=
    outcome (Transcription.transcribe_audio_v2 g audio_content profile_id) in
  (results response = [] -> result = inr "")
  /\ (forall texts,
        Forall2 top_alternative_text (results response) texts ->
        result = inr (Py.strip (Py.join " " texts))
        /\ (Py.strip (Py.join " " texts) = "" -> result = inr "")).
Proof.
  intros Hc Henc Hcall result. subst result.
  rewrite transcribe_audio_v2_cases, Hc, Henc. cbn [outcome snd].
  rewrite Hcall. unfold assemble. split.
  - intros ->. reflexivity.
  - intros texts Htexts. rewrite (top_transcripts_all _ _ Htexts).
    split; [reflexivity |]. now intros ->.
Qed.

Lemma transcribe_audio_v2_assembles_witness :
  outcome
    (Transcription.transcribe_audio_v2
       (sample_globals
          (Some (sample_client
                   (inr (sample_response [[" hello"; "hallo"]; ["world "]]))))
          (Some M4A_AAC))
       sample_audio "profile-1")
  = inr "hello world".
Proof.
  refine (proj1
    (proj2
       (transcribe_audio_v2_assembles
          (sample_globals
             (Some (sample_client
                      (inr (sample_response
                              [[" hello"; "hallo"]; ["world "]]))))
             (Some M4A_AAC))
          _ M4A_AAC sample_audio "profile-1" _ eq_refl eq_refl eq_refl)
       [" hello"; "world "] _)).
  repeat constructor; eexists; eexists; split; reflexivity.
Defined.

(** C2, as stated, fails when the provider library lacks the [M4A_AAC]
    member: the call fails with an error that is none of the four
    listed kinds. *)
Lemma transcribe_audio_v2_fifth_failure :
  exists e,
    outcome
      (Transcription.transcribe_audio_v2
         (sample_globals (Some (sample_client (inr (sample_response []))))
            None)
         sample_audio "profile-1") = inl e
    /\ ~ stated_failure e.
Proof.
  exists Transcription.encoding_error. split; [reflexivity |].
  intros [H | [[m H] | [[m H] | H]]]; cbn in H; discriminate.
Qed.

(** C2 (amended): every failure of the function is an HTTP 500.  With
    no client handle it fails at once with the not-configured message
    and makes no network call; once the request is built, a not-found
    condition raised by the call gives the recognizer configuration
    message, any other provider call error gives the provider-error
    message, both carrying the provider's message, and any other
    exception gives the generic message.  With a client handle, when
    building the explicit decoding configuration raises
    [AttributeError] it fails with the audio-encoding configuration
    message before any network call.  There is no other failure. *)
Theorem transcribe_audio_v2_failures (g : Transcription.globals)
    (audio_content : bytes) (profile_id : string) :
  let call := Transcription.transcribe_audio_v2 g audio_content profile_id in
  (Transcription.speech_client g = None ->
   call = ([EvTranscribe audio_content profile_id],
           inl (HTTPException 500
                  "Transcription service is not properly configured (Speech Client)."))
   /\ count is_recognize (trace call) = 0)
  /\ (forall client enc,
        Transcription.speech_client g = Some client ->
        Transcription.AudioEncoding_M4A_AAC g = Some enc ->
        match recognize client
                (Transcription.build_request g enc audio_content) with
        | inl (NotFound message) =>
            outcome call
            = inl (HTTPException 500
                     ("Transcription recognizer configuration error: "
                        ++ message))
        | inl (GoogleAPICallError message) =>
            outcome call
            = inl (HTTPException 500
                     ("Transcription failed due to Google API error: "
                        ++ message))
        | inl _ =>
            outcome call
            = inl (HTTPException 500
                     "An unexpected error occurred during transcription.")
        | inr _ => exists text, outcome call = inr text
        end)
  /\ (forall client msg,
        Transcription.speech_client g = Some client ->
        Transcription.getattr_M4A_AAC g = inl (AttributeError msg) ->
        outcome call
        = inl (HTTPException 500
                 "Transcription service configuration error (Audio Encoding).")
        /\ count is_recognize (trace call) = 0)
  /\ (forall e,
        outcome call = inl e ->
        (exists detail, e = HTTPException 500 detail)
        /\ (stated_failure e \/ e = Transcription.encoding_error)).
Proof.
  intros call. subst call. rewrite transcribe_audio_v2_cases.
  split; [| split; [| split]].
  - intros ->. split; reflexivity.
  - intros client enc -> ->. cbn [outcome snd].
    destruct (recognize client _) as [[] | response]; try reflexivity.
    eexists; reflexivity.
  - intros client msg -> Hattr.
    unfold Transcription.getattr_M4A_AAC in Hattr.
    destruct (Transcription.AudioEncoding_M4A_AAC g); [discriminate |].
    split; reflexivity.
  - intros e. unfold stated_failure.
    destruct (Transcription.speech_client g) as [client |].
    + destruct (Transcription.AudioEncoding_M4A_AAC g) as [enc |].
      * cbn [outcome snd].
        destruct (recognize client _) as [[] | response];
          intros [= <-]; (split; [eexists; reflexivity |]); eauto 8.
      * intros [= <-]. split; [eexists; reflexivity |]. auto.
    + intros [= <-]. split; [eexists; reflexivity |]. auto.
Qed.

Lemma transcribe_audio_v2_failures_witness :
  Transcription.transcribe_audio_v2 (sample_globals None (Some M4A_AAC))
    sample_audio "profile-1"
  = ([EvTranscribe sample_audio "profile-1"],
     inl (HTTPException 500
            "Transcription service is not properly configured (Speech Client)."))
  /\ outcome
       (Transcription.transcribe_audio_v2
          (sample_globals
             (Some (sample_client (inl (NotFound "no such recognizer"))))
             (Some M4A_AAC))
          sample_audio "profile-1")
     = inl (HTTPException 500
              "Transcription recognizer configuration error: no such recognizer")
  /\ (outcome
        (Transcription.transcribe_audio_v2
           (sample_globals
              (Some (sample_client (inr (sample_response [["hi"]]))))
              None)
           sample_audio "profile-1")
      = inl (HTTPException 500
               "Transcription service configuration error (Audio Encoding).")
      /\ count is_recognize
           (trace
              (Transcription.transcribe_audio_v2
                 (sample_globals
                    (Some (sample_client (inr (sample_response [["hi"]]))))
                    None)
                 sample_audio "profile-1")) = 0).
Proof.
  split; [| split].
  - apply (proj1 (transcribe_audio_v2_failures
                    (sample_globals None (Some M4A_AAC))
                    sample_audio "profile-1")).
    reflexivity.
  - exact (proj1 (proj2 (transcribe_audio_v2_failures
                    (sample_globals
                       (Some (sample_client
                                (inl (NotFound "no such recognizer"))))
                       (Some M4A_AAC))
                    sample_audio "profile-1"))
             _ M4A_AAC eq_refl eq_refl).
  - exact (proj1 (proj2 (proj2 (transcribe_audio_v2_failures
                    (sample_globals
                       (Some (sample_client (inr (sample_response [["hi"]]))))
                       None)
                    sample_audio "profile-1")))
             _ "M4A_AAC" eq_refl eq_refl).
Defined.

(** C8: a result without alternatives does not make the function fail;
    it is left out, and the transcript is the trimmed space-join of the
    first alternative's transcripts of those results that have one. *)
Theorem transcribe_audio_v2_skips_empty_results (g : Transcription.globals)
    (client : SpeechClient) (enc : AudioEncoding)
    (audio_content : bytes) (profile_id : string)
    (response : RecognizeResponse) :
  Transcription.speech_client g = Some client ->
  Transcription.AudioEncoding_M4A_AAC g = Some enc ->
  recognize client (Transcription.build_request g enc audio_content)
    = inr response ->
  exists texts,
    Forall2 top_alternative_text (with_alternatives (results response)) texts
    /\ outcome (Transcription.transcribe_audio_v2 g audio_content profile_id)
       = inr (Py.strip (Py.join " " texts)).
Proof.
  intros Hc Henc Hcall.
  exists (Transcription.top_transcripts (results response)). split.
  - apply top_transcripts_with_alternatives.
  - rewrite transcribe_audio_v2_cases, Hc, Henc. cbn [outcome snd].
    now rewrite Hcall.
Qed.

Lemma transcribe_audio_v2_skips_empty_results_witness :
  exists texts,
    Forall2 top_alternative_text
      (with_alternatives
         (results (sample_response [["good"]; []; ["morning"; "mourning"]])))
      texts
    /\ outcome
         (Transcription.transcribe_audio_v2
            (sample_globals
               (Some (sample_client
                        (inr (sample_response
                                [["good"]; []; ["morning"; "mourning"]]))))
               (Some M4A_AAC))
            sample_audio "profile-1")
       = inr (Py.strip (Py.join " " texts)).
Proof.
  exact (transcribe_audio_v2_skips_empty_results
           (sample_globals
              (Some (sample_client
                       (inr (sample_response
                               [["good"]; []; ["morning"; "mourning"]]))))
              (Some M4A_AAC))
           _ M4A_AAC sample_audio "profile-1" _ eq_refl eq_refl eq_refl).
Defined.

Example skips_empty_results_value :
  outcome
    (Transcription.transcribe_audio_v2
       (sample_globals
          (Some (sample_client
                   (inr (sample_response
                           [["good"]; []; ["morning"; "mourning"]]))))
          (Some M4A_AAC))
       sample_audio "profile-1")
  = inr "good morning".
Proof. reflexivity. Qed.

(** C9: when the provider library has no [M4A_AAC] member, building the
    decoding configuration raises [AttributeError] and the call fails
    with HTTP 500 and the audio-encoding configuration message, without
    any network call. *)
Theorem transcribe_audio_v2_encoding_error (g : Transcription.globals)
    (client : SpeechClient) (audio_content : bytes) (profile_id : string) :
  Transcription.speech_client g = Some client ->
  Transcription.getattr_M4A_AAC g = inl (AttributeError "M4A_AAC") ->
  let call := Transcription.transcribe_audio_v2 g audio_content profile_id in
  outcome call
  = inl (HTTPException 500
           "Transcription service configuration error (Audio Encoding).")
  /\ count is_recognize (trace call) = 0.
Proof.
  intros Hc Hattr call. subst call.
  rewrite transcribe_audio_v2_cases, Hc.
  unfold Transcription.getattr_M4A_AAC in Hattr.
  destruct (Transcription.AudioEncoding_M4A_AAC g); [discriminate |].
  split; reflexivity.
Qed.

Lemma transcribe_audio_v2_encoding_error_witness :
  outcome
    (Transcription.transcribe_audio_v2
       (sample_globals (Some (sample_client (inr (sample_response [["hi"]]))))
          None)
       sample_audio "profile-1")
  = inl (HTTPException 500
           "Transcription service configuration error (Audio Encoding).").
Proof.
  exact (proj1 (transcribe_audio_v2_encoding_error
                  (sample_globals
                     (Some (sample_client (inr (sample_response [["hi"]]))))
                     None)
                  _ sample_audio "profile-1" eq_refl eq_refl)).
Defined.

(** ** The endpoint handler *)

Lemma count_repeat_xor (p : event -> bool) (n : nat) :
  p EvXorStep = false -> count p (repeat EvXorStep n) = 0.
Proof.
  intros Hp. unfold count. induction n as [| n IH]; simpl; [reflexivity |].
  now rewrite Hp.
Qed.

(** The validator performs comparison steps only. *)
Lemma validate_api_key_trace (p : event -> bool) (secret : string)
    (header : option string) :
  (forall b, p (EvLenCmp b) = false) -> p EvXorStep = false ->
  count p (trace (Security.validate_api_key secret header)) = 0.
Proof.
  intros Hlen Hxor. unfold Security.validate_api_key.
  destruct header as [[| c value] |]; try reflexivity.
  cbn [Py.truthy negb]. unfold Secrets.compare_digest.
  destruct (Py.isascii (String c value) && Py.isascii secret); [| reflexivity].
  rewrite tscmp_spec.
  destruct (bool_decide _); cbn; rewrite List.app_nil_r;
    unfold count; cbn; rewrite Hlen; now apply count_repeat_xor.
Qed.

Lemma transcribe_audio_v2_no_close (g : Transcription.globals)
    (audio_content : bytes) (profile_id : string) :
  count is_close
    (trace (Transcription.transcribe_audio_v2 g audio_content profile_id)) = 0.
Proof.
  rewrite transcribe_audio_v2_cases.
  destruct (Transcription.speech_client g); [| reflexivity].
  destruct (Transcription.AudioEncoding_M4A_AAC g); reflexivity.
Qed.

(** Every run of the handler closes the upload once, as its last step. *)
Lemma process_transcription_closes (g : Transcription.globals)
    (profile_id : string) (audio_file : Main.UploadFile) :
  count is_close
    (trace (Main.process_transcription g profile_id audio_file)) = 1.
Proof.
  unfold Main.process_transcription.
  destruct (Main.read audio_file) as [e | [| b audio]].
  - destruct e; reflexivity.
  - reflexivity.
  - pose proof (transcribe_audio_v2_no_close g (b :: audio) profile_id) as Hc.
    cbn -[Transcription.transcribe_audio_v2].
    destruct (Transcription.transcribe_audio_v2 g (b :: audio) profile_id)
      as [t [e | text]]; cbn in Hc |- *.
    + destruct e; cbn;
        rewrite ?List.app_nil_r, List.filter_app, List.length_app, Hc;
        reflexivity.
    + rewrite ?List.app_nil_r, List.filter_app, List.length_app, Hc.
      reflexivity.
Qed.

Lemma handle_post (app : Main.App) (x_api_key : option string)
    (profile_id : string) (audio_file : Main.UploadFile) :
  Main.handle app (Main.POST_transcribe x_api_key profile_id audio_file) =
  match Security.validate_api_key
          (Config.TRANSCRIPTION_API_KEY (Main.config app)) x_api_key with
  | (tv, inl e) => (tv, Main.render (inl e))
  | (tv, inr _) =>
      ((tv ++ trace (Main.process_transcription (Main.transcription app)
                       profile_id audio_file))%list,
       Main.render
         (outcome (Main.process_transcription (Main.transcription app)
                     profile_id audio_file)))
  end.
Proof.
  unfold Main.handle, Main.dispatch.
  destruct (Security.validate_api_key _ x_api_key) as [tv [e | v]];
    [reflexivity |].
  cbn -[Main.process_transcription].
  destruct (Main.process_transcription _ profile_id audio_file); reflexivity.
Qed.

Lemma process_transcription_empty (g : Transcription.globals)
    (profile_id : string) (audio_file : Main.UploadFile) :
  Main.read audio_file = inr [] ->
  Main.process_transcription g profile_id audio_file
  = ([EvRead; EvClose], inl (HTTPException 400 "Audio file is empty.")).
Proof.
  intros Hread. unfold Main.process_transcription. now rewrite Hread.
Qed.

Lemma process_transcription_no_client (g : Transcription.globals)
    (profile_id : string) (audio_file : Main.UploadFile)
    (b : Byte.byte) (audio : bytes) :
  Transcription.speech_client g = None ->
  Main.read audio_file = inr (b :: audio) ->
  outcome (Main.process_transcription g profile_id audio_file)
  = inl Transcription.client_not_configured.
Proof.
  intros Hc Hread. unfold Main.process_transcription. rewrite Hread.
  cbn -[Transcription.transcribe_audio_v2].
  rewrite transcribe_audio_v2_cases, Hc. reflexivity.
Qed.

Lemma serve_spec (app : Main.App) (reqs : list Main.Request) :
  Main.serve app reqs = (app, map (Main.handle app) reqs).
Proof.
  induction reqs as [| req reqs IH]; simpl; [reflexivity |].
  now rewrite IH.
Qed.

(** C5: a request with a valid key whose upload reads as zero bytes is
    answered with 400 and the empty-file message, and the transcription
    client is not called. *)
Theorem empty_upload_rejected (app : Main.App) (x_api_key : option string)
    (profile_id : string) (audio_file : Main.UploadFile) (v : bool) :
  outcome (Security.validate_api_key
             (Config.TRANSCRIPTION_API_KEY (Main.config app)) x_api_key)
    = inr v ->
  Main.read audio_file = inr [] ->
  let answer :=
    Main.handle app (Main.POST_transcribe x_api_key profile_id audio_file) in
  snd answer
    = {| Main.status := 400; Main.payload := Main.Detail "Audio file is empty." |}
  /\ count is_transcribe (fst answer) = 0
  /\ count is_recognize (fst answer) = 0.
Proof.
  intros Hkey Hread answer. subst answer. rewrite handle_post.
  pose proof (validate_api_key_trace is_transcribe
                (Config.TRANSCRIPTION_API_KEY (Main.config app)) x_api_key
                (fun _ => eq_refl) eq_refl) as Ht.
  pose proof (validate_api_key_trace is_recognize
                (Config.TRANSCRIPTION_API_KEY (Main.config app)) x_api_key
                (fun _ => eq_refl) eq_refl) as Hr.
  destruct (Security.validate_api_key _ x_api_key) as [tv [e | v']];
    cbn in Hkey, Ht, Hr; [discriminate |].
  rewrite (process_transcription_empty _ _ _ Hread). cbn [trace outcome fst snd].
  repeat split.
  - fold (count is_transcribe tv) in Ht. now rewrite count_app, Ht.
  - fold (count is_recognize tv) in Hr. now rewrite count_app, Hr.
Qed.

Lemma empty_upload_rejected_witness :
  let answer :=
    Main.handle sample_app
      (Main.POST_transcribe (Some "s3cret") "profile-1"
         (sample_upload (inr []))) in
  snd answer
    = {| Main.status := 400; Main.payload := Main.Detail "Audio file is empty." |}
  /\ count is_transcribe (fst answer) = 0
  /\ count is_recognize (fst answer) = 0.
Proof.
  exact (empty_upload_rejected sample_app (Some "s3cret") "profile-1"
           (sample_upload (inr [])) true eq_refl eq_refl).
Defined.

(** C7, as stated, fails on the 401 path: a request rejected by the key
    validator never enters the handler, so nothing closes the upload. *)
Lemma unauthorized_request_not_closed :
  let answer :=
    Main.handle sample_app
      (Main.POST_transcribe None "profile-1" (sample_upload (inr sample_audio)))
  in
  Main.status (snd answer) = 401
  /\ count is_close (fst answer) = 0
  /\ count is_close (fst answer) <> 1.
Proof. cbn. repeat split. discriminate. Qed.

(** C7 (amended): every run of the handler, whether it returns the
    transcript, raises an HTTP error (400 or 500) or meets an unexpected
    fault, closes the upload exactly once; at the endpoint the upload
    is closed once when the key validator lets the request through,
    and the handler does not run, and closes nothing, when the
    validator rejects it. *)
Theorem upload_closed_once (app : Main.App) (x_api_key : option string)
    (profile_id : string) (audio_file : Main.UploadFile) :
  count is_close
    (trace (Main.process_transcription (Main.transcription app)
              profile_id audio_file)) = 1
  /\ count is_close
       (fst (Main.handle app
               (Main.POST_transcribe x_api_key profile_id audio_file)))
     = match outcome (Security.validate_api_key
                        (Config.TRANSCRIPTION_API_KEY (Main.config app))
                        x_api_key) with
       | inr _ => 1
       | inl _ => 0
       end.
Proof.
  split; [apply process_transcription_closes |].
  rewrite handle_post.
  pose proof (validate_api_key_trace is_close
                (Config.TRANSCRIPTION_API_KEY (Main.config app)) x_api_key
                (fun _ => eq_refl) eq_refl) as Hv.
  destruct (Security.validate_api_key _ x_api_key) as [tv [e | v]];
    cbn [trace outcome fst snd] in *; [exact Hv |].
  now rewrite count_app, Hv, process_transcription_closes.
Qed.

(** C10: when the client constructor raises at module load, the
    application still starts, with the client handle unset.  From then
    on the health check answers 200, every call of the transcription
    function fails with HTTP 500, so does every request that reaches
    it, and serving requests leaves the handle unset. *)
Theorem client_init_failure_not_fatal (environ : gmap string string)
    (cfg : Config.t) (e : exn) (m4a_aac : option AudioEncoding) :
  Config.load environ = inr cfg ->
  exists app,
    Main.startup environ (inl e) m4a_aac = inr app
    /\ Transcription.speech_client (Main.transcription app) = None
    /\ (forall audio_content profile_id,
          outcome (Transcription.transcribe_audio_v2 (Main.transcription app)
                     audio_content profile_id)
          = inl (HTTPException 500
                   "Transcription service is not properly configured (Speech Client)."))
    /\ (forall reqs,
          fst (Main.serve app reqs) = app
          /\ Forall2
               (fun req answer =>
                  match req with
                  | Main.GET_health =>
                      answer
                      = ([], {| Main.status := 200;
                                Main.payload := Main.StatusOk |})
                  | Main.POST_transcribe x_api_key profile_id audio_file =>
                      forall v b audio,
                        outcome (Security.validate_api_key
                                   (Config.TRANSCRIPTION_API_KEY
                                      (Main.config app)) x_api_key) = inr v ->
                        Main.read audio_file = inr (b :: audio) ->
                        snd answer
                        = {| Main.status := 500;
                             Main.payload :=
                               Main.Detail
                                 "Transcription service is not properly configured (Speech Client)." |}
                  end)
               reqs (snd (Main.serve app reqs))).
Proof.
  intros Hcfg. unfold Main.startup. rewrite Hcfg.
  eexists. split; [reflexivity |]. split; [reflexivity |]. split.
  - intros audio_content profile_id. now rewrite transcribe_audio_v2_cases.
  - intros reqs. rewrite serve_spec. split; [reflexivity |].
    cbn [snd]. induction reqs as [| req reqs IH]; constructor; [| exact IH].
    destruct req as [| x_api_key profile_id audio_file]; [reflexivity |].
    intros v b audio Hkey Hread. rewrite handle_post.
    destruct (Security.validate_api_key _ x_api_key) as [tv [e' | v']];
      cbn in Hkey; [discriminate |].
    cbn [snd].
    rewrite (process_transcription_no_client _ profile_id audio_file b audio);
      [reflexivity | reflexivity | exact Hread].
Qed.

Lemma client_init_failure_not_fatal_witness :
  exists app,
    Main.startup sample_environ
      (inl (OtherException "could not determine credentials")) (Some M4A_AAC)
    = inr app
    /\ Transcription.speech_client (Main.transcription app) = None.
Proof.
  destruct (client_init_failure_not_fatal sample_environ sample_config
              (OtherException "could not determine credentials")
              (Some M4A_AAC) eq_refl)
    as (app & Hstart & Hnone & _).
  exists app. split; assumption.
Defined.

(** ** Startup configuration *)

(** C6: [get_env_variable] raises exactly when the variable is absent
    and no default is given; the application starts only if both
    required variables are present, and the values it serves with are
    those read while the modules were loaded. *)
Theorem startup_requires_configuration (environ : gmap string string) :
  (forall var_name default,
     (exists e, Config.get_env_variable environ var_name default = inl e)
     <-> environ !! var_name = None /\ default = None)
  /\ (forall var_name,
        environ !! var_name = None ->
        Config.get_env_variable environ var_name None
        = inl (EnvironmentError
                 ("Missing required environment variable: '"
                    ++ var_name ++ "'")))
  /\ (forall ctor m4a_aac,
        environ !! "GOOGLE_SPEECH_RECOGNIZER_NAME" = None
        \/ environ !! "TRANSCRIPTION_API_KEY" = None ->
        exists msg,
          Main.startup environ ctor m4a_aac = inl (EnvironmentError msg))
  /\ (forall ctor m4a_aac app,
        Main.startup environ ctor m4a_aac = inr app ->
        environ !! "GOOGLE_SPEECH_RECOGNIZER_NAME"
          = Some (Config.GOOGLE_SPEECH_RECOGNIZER_NAME (Main.config app))
        /\ environ !! "TRANSCRIPTION_API_KEY"
           = Some (Config.TRANSCRIPTION_API_KEY (Main.config app))).
Proof.
  split; [| split; [| split]].
  - intros var_name default.
    unfold Config.get_env_variable, Py.getenv.
    destruct (environ !! var_name) as [value |].
    + split; [intros [e He]; discriminate | intros [Hn _]; discriminate].
    + destruct default as [d |].
      * split; [intros [e He]; discriminate | intros [_ Hd]; discriminate].
      * split; [auto | intros _; eexists; reflexivity].
  - intros var_name Hn. unfold Config.get_env_variable, Py.getenv.
    now rewrite Hn.
  - intros ctor m4a_aac H.
    unfold Main.startup, Config.load, Config.get_env_variable, Py.getenv.
    destruct (environ !! "GOOGLE_SPEECH_RECOGNIZER_NAME") as [name |];
      [| eexists; reflexivity].
    destruct H as [H | H]; [discriminate |]. rewrite H.
    eexists; reflexivity.
  - intros ctor m4a_aac app.
    unfold Main.startup, Config.load, Config.get_env_variable, Py.getenv.
    destruct (environ !! "GOOGLE_SPEECH_RECOGNIZER_NAME") as [name |];
      [| discriminate].
    destruct (environ !! "TRANSCRIPTION_API_KEY") as [key |]; [| discriminate].
    intros [= <-]. split; reflexivity.
Qed.

Lemma startup_requires_configuration_witness :
  exists msg,
    Main.startup (<["TRANSCRIPTION_API_KEY" := "s3cret"]> ∅)
      (inr (sample_client (inr (sample_response [])))) (Some M4A_AAC)
    = inl (EnvironmentError msg).
Proof.
  apply (proj1 (proj2 (proj2 (startup_requires_configuration
                                (<["TRANSCRIPTION_API_KEY" := "s3cret"]> ∅))))).
  left. reflexivity.
Defined.

(** * Further properties of the pipeline *)

(** ** Trimming and joining *)

Lemma lstrip_chars_head (l : list ascii) :
  match Py.lstrip_chars l with
  | [] => True
  | c :: _ => Py.isspace c = false
  end.
Proof.
  induction l as [| c l IH]; simpl; [exact I |].
  destruct (Py.isspace c) eqn:Hc; [exact IH | exact Hc].
Qed.

Lemma lstrip_chars_blank (l : list ascii) :
  forallb Py.isspace l = true -> Py.lstrip_chars l = [].
Proof.
  induction l as [| c l IH]; simpl; [reflexivity |].
  intros [Hc Hl]%andb_prop. rewrite Hc. auto.
Qed.

Lemma lstrip_chars_fixed (c : ascii) (l : list ascii) :
  Py.isspace c = false -> Py.lstrip_chars (c :: l) = c :: l.
Proof. intros Hc. simpl. now rewrite Hc. Qed.

(** Stripping on the left keeps a final character that is not
    whitespace. *)
Lemma lstrip_chars_snoc (l : list ascii) (c : ascii) :
  Py.isspace c = false ->
  exists m, Py.lstrip_chars (l ++ [c])%list = (m ++ [c])%list.
Proof.
  intros Hc. induction l as [| x l IH]; simpl.
  - rewrite Hc. now exists [].
  - destruct (Py.isspace x); [exact IH |]. now exists (x :: l).
Qed.

Lemma lstrip_chars_idem (l : list ascii) :
  Py.lstrip_chars (Py.lstrip_chars l) = Py.lstrip_chars l.
Proof.
  pose proof (lstrip_chars_head l) as H.
  destruct (Py.lstrip_chars l) as [| c k]; [reflexivity |].
  now apply lstrip_chars_fixed.
Qed.

(** What [strip] leaves: nothing, or a list [c :: rev m] whose first
    character is not whitespace and whose mirror image [m ++ [c]] is
    itself stripped on the left. *)
Lemma strip_chars_cases (l : list ascii) :
  let out := Py.rstrip_chars (Py.lstrip_chars l) in
  out = []
  \/ exists c m,
       out = c :: rev m
       /\ Py.isspace c = false
       /\ Py.lstrip_chars (m ++ [c])%list = (m ++ [c])%list.
Proof.
  cbv zeta. unfold Py.rstrip_chars.
  pose proof (lstrip_chars_head l) as Hhead.
  destruct (Py.lstrip_chars l) as [| c k]; [now left | right].
  cbn [rev].
  destruct (lstrip_chars_snoc (rev k) c Hhead) as [m Hm].
  exists c, m. rewrite Hm, List.rev_app_distr. cbn [rev List.app].
  repeat split; [exact Hhead |].
  rewrite <- Hm. apply lstrip_chars_idem.
Qed.

Lemma strip_chars_trimmed (l : list ascii) :
  match Py.rstrip_chars (Py.lstrip_chars l) with
  | [] => True
  | c :: m => Py.isspace c = false /\ Py.isspace (List.last m c) = false
  end.
Proof.
  destruct (strip_chars_cases l) as [-> | (c & m & -> & Hc & Hm)];
    [exact I |].
  split; [exact Hc |].
  pose proof (lstrip_chars_head (m ++ [c])%list) as Hhead. rewrite Hm in Hhead.
  destruct m as [| x m]; [exact Hc |].
  cbn [rev]. rewrite List.last_last. exact Hhead.
Qed.

Lemma strip_chars_idem (l : list ascii) :
  let out := Py.rstrip_chars (Py.lstrip_chars l) in
  Py.rstrip_chars (Py.lstrip_chars out) = out.
Proof.
  cbv zeta.
  destruct (strip_chars_cases l) as [-> | (c & m & -> & Hc & Hm)];
    [reflexivity |].
  rewrite (lstrip_chars_fixed _ _ Hc). unfold Py.rstrip_chars.
  cbn [rev]. rewrite List.rev_involutive, Hm, List.rev_app_distr.
  reflexivity.
Qed.

Lemma strip_trimmed (s : string) : trimmed (Py.strip s) = true.
Proof.
  unfold trimmed, Py.strip. rewrite list_ascii_of_string_of_list_ascii.
  pose proof (strip_chars_trimmed (list_ascii_of_string s)) as H.
  destruct (Py.rstrip_chars _) as [| c m]; [reflexivity |].
  destruct H as [-> ->]. reflexivity.
Qed.

Lemma strip_idem (s : string) : Py.strip (Py.strip s) = Py.strip s.
Proof.
  unfold Py.strip. rewrite list_ascii_of_string_of_list_ascii.
  now rewrite strip_chars_idem.
Qed.

Lemma list_ascii_of_string_app (s1 s2 : string) :
  list_ascii_of_string (s1 ++ s2)
  = (list_ascii_of_string s1 ++ list_ascii_of_string s2)%list.
Proof. induction s1 as [| c s1 IH]; simpl; [reflexivity | now rewrite IH]. Qed.

Lemma blank_app (s1 s2 : string) :
  blank s1 = true -> blank s2 = true -> blank (s1 ++ s2) = true.
Proof.
  unfold blank. intros H1 H2.
  rewrite list_ascii_of_string_app, forallb_app, H1, H2. reflexivity.
Qed.

Lemma blank_join (texts : list string) :
  Forall (fun t => blank t = true) texts ->
  blank (Py.join " " texts) = true.
Proof.
  unfold Py.join. induction 1 as [| t ts Ht Hts IH]; [reflexivity |].
  destruct ts as [| t' ts]; [exact Ht |].
  change (blank (t ++ " " ++ String.concat " " (t' :: ts)) = true).
  apply blank_app; [exact Ht |]. apply blank_app; [reflexivity | exact IH].
Qed.

Lemma strip_blank (s : string) : blank s = true -> Py.strip s = "".
Proof.
  unfold blank, Py.strip. intros H. now rewrite (lstrip_chars_blank _ H).
Qed.

Lemma top_transcripts_map (rs : list SpeechRecognitionResult) :
  Transcription.top_transcripts rs = omap top_text rs.
Proof.
  induction rs as [| r rs IH]; simpl; [reflexivity |].
  unfold top_text at 1. destruct (alternatives r); simpl; now rewrite IH.
Qed.

(** ** The transcription client, further *)

Lemma transcribe_audio_v2_raises_500 (g : Transcription.globals)
    (audio_content : bytes) (profile_id : string) (e : exn) :
  outcome (Transcription.transcribe_audio_v2 g audio_content profile_id)
    = inl e ->
  exists detail, e = HTTPException 500 detail.
Proof.
  rewrite transcribe_audio_v2_cases.
  destruct (Transcription.speech_client g) as [client |];
    [| intros [= <-]; eexists; reflexivity].
  destruct (Transcription.AudioEncoding_M4A_AAC g) as [enc |];
    [| intros [= <-]; eexists; reflexivity].
  cbn [outcome snd].
  destruct (recognize client _) as [[] | response]; intros [= <-];
    eexists; reflexivity.
Qed.

Lemma transcribe_audio_v2_returns (g : Transcription.globals)
    (audio_content : bytes) (profile_id : string) (text : string) :
  outcome (Transcription.transcribe_audio_v2 g audio_content profile_id)
    = inr text ->
  exists response, text = assemble response.
Proof.
  rewrite transcribe_audio_v2_cases.
  destruct (Transcription.speech_client g) as [client |]; [| discriminate].
  destruct (Transcription.AudioEncoding_M4A_AAC g) as [enc |];
    [| discriminate].
  cbn [outcome snd].
  destruct (recognize client _) as [[] | response]; try discriminate.
  intros [= <-]. now exists response.
Qed.

Lemma omap_top_text_blank (rs : list SpeechRecognitionResult) :
  (forall r t, In r rs -> top_text r = Some t -> blank t = true) ->
  Forall (fun t => blank t = true) (omap top_text rs).
Proof.
  induction rs as [| r rs IH]; intros H; simpl; [constructor |].
  destruct (top_text r) as [t |] eqn:Ht.
  - constructor.
    + apply (H r t); [now left | exact Ht].
    + apply IH. intros r' t' Hin. apply H. now right.
  - apply IH. intros r' t' Hin. apply H. now right.
Qed.

Lemma omap_top_text_agree (rs rs' : list SpeechRecognitionResult) :
  Forall2 (fun r r' => top_text r = top_text r') rs rs' ->
  omap top_text rs = omap top_text rs'.
Proof.
  induction 1 as [| r r' rs rs' Hr _ IH]; simpl; [reflexivity |].
  rewrite Hr. destruct (top_text r'); [f_equal |]; exact IH.
Qed.

(** X1: one call of the function makes at most one provider call, and
    makes it exactly when the client handle is set and the [M4A_AAC]
    member exists.  The request it sends names the configured
    recognizer, carries the audio bytes unchanged, and asks for explicit
    M4A/AAC decoding, language "en-US" and model "long". *)
Theorem transcribe_audio_v2_single_request (g : Transcription.globals)
    (audio_content : bytes) (profile_id : string) :
  let t :=
    trace (Transcription.transcribe_audio_v2 g audio_content profile_id) in
  count is_recognize t <= 1
  /\ (count is_recognize t = 1
      <-> is_Some (Transcription.speech_client g)
          /\ is_Some (Transcription.AudioEncoding_M4A_AAC g))
  /\ (forall req,
        In (EvRecognize req) t ->
        recognizer req = Transcription.GOOGLE_SPEECH_RECOGNIZER_NAME g
        /\ content req = audio_content
        /\ Transcription.AudioEncoding_M4A_AAC g
           = Some (encoding (explicit_decoding_config (config req)))
        /\ language_codes (config req) = ["en-US"]
        /\ model (config req) = "long").
Proof.
  cbv zeta. rewrite transcribe_audio_v2_cases.
  destruct (Transcription.speech_client g) as [client |].
  - destruct (Transcription.AudioEncoding_M4A_AAC g) as [enc |];
      cbn [trace fst].
    + split; [cbv; lia |]. split.
      * split; [intros _; split; eexists; reflexivity | reflexivity].
      * intros req [H | [H | []]]; [discriminate |].
        injection H as <-. repeat split.
    + split; [cbv; lia |]. split.
      * split; [discriminate | intros [_ [x Hx]]; discriminate].
      * intros req [H | []]; discriminate.
  - cbn [trace fst]. split; [cbv; lia |]. split.
    + split; [discriminate | intros [[x Hx] _]; discriminate].
    + intros req [H | []]; discriminate.
Qed.

Lemma transcribe_audio_v2_single_request_witness :
  count is_recognize
    (trace (Transcription.transcribe_audio_v2
              (sample_globals
                 (Some (sample_client (inr (sample_response [["hi"]]))))
                 (Some M4A_AAC))
              sample_audio "profile-1")) = 1
  /\ content
       (Transcription.build_request
          (sample_globals
             (Some (sample_client (inr (sample_response [["hi"]]))))
             (Some M4A_AAC))
          M4A_AAC sample_audio)
     = sample_audio.
Proof.
  split.
  - apply (proj2 (proj1 (proj2 (transcribe_audio_v2_single_request
                                  (sample_globals
                                     (Some (sample_client
                                              (inr (sample_response [["hi"]]))))
                                     (Some M4A_AAC))
                                  sample_audio "profile-1")))).
    split; eexists; reflexivity.
  - apply (proj2 (proj2 (transcribe_audio_v2_single_request
                           (sample_globals
                              (Some (sample_client
                                       (inr (sample_response [["hi"]]))))
                              (Some M4A_AAC))
                           sample_audio "profile-1"))).
    right. left. reflexivity.
Defined.

(** X2: whatever the function returns is trimmed: it neither starts
    nor ends with whitespace, and trimming it again changes nothing. *)
Theorem transcribe_audio_v2_result_trimmed (g : Transcription.globals)
    (audio_content : bytes) (profile_id : string) (text : string) :
  outcome (Transcription.transcribe_audio_v2 g audio_content profile_id)
    = inr text ->
  trimmed text = true /\ Py.strip text = text.
Proof.
  intros [response ->]%transcribe_audio_v2_returns. unfold assemble.
  split; [apply strip_trimmed | apply strip_idem].
Qed.

Lemma transcribe_audio_v2_result_trimmed_witness :
  trimmed "hello world" = true /\ Py.strip "hello world" = "hello world".
Proof.
  exact (transcribe_audio_v2_result_trimmed
           (sample_globals
              (Some (sample_client
                       (inr (sample_response
                               [[" hello"; "hallo"]; ["world "]]))))
              (Some M4A_AAC))
           sample_audio "profile-1" "hello world" eq_refl).
Defined.

(** X3: when the first alternative of every result that has one is
    made of whitespace only, a successful call returns the empty
    string. *)
Theorem transcribe_audio_v2_blank_results (g : Transcription.globals)
    (client : SpeechClient) (enc : AudioEncoding)
    (audio_content : bytes) (profile_id : string)
    (response : RecognizeResponse) :
  Transcription.speech_client g = Some client ->
  Transcription.AudioEncoding_M4A_AAC g = Some enc ->
  recognize client (Transcription.build_request g enc audio_content)
    = inr response ->
  (forall r t, In r (results response) -> top_text r = Some t ->
               blank t = true) ->
  outcome (Transcription.transcribe_audio_v2 g audio_content profile_id)
    = inr "".
Proof.
  intros Hc Henc Hcall Hblank.
  rewrite transcribe_audio_v2_cases, Hc, Henc. cbn [outcome snd].
  rewrite Hcall. unfold assemble. f_equal.
  apply strip_blank, blank_join. rewrite top_transcripts_map.
  now apply omap_top_text_blank.
Qed.

Lemma transcribe_audio_v2_blank_results_witness :
  outcome
    (Transcription.transcribe_audio_v2
       (sample_globals
          (Some (sample_client (inr (sample_response [[" "; "x"]; []; ["  "]]))))
          (Some M4A_AAC))
       sample_audio "profile-1")
  = inr "".
Proof.
  apply (transcribe_audio_v2_blank_results
           (sample_globals
              (Some (sample_client
                       (inr (sample_response [[" "; "x"]; []; ["  "]]))))
              (Some M4A_AAC))
           _ M4A_AAC sample_audio "profile-1" _ eq_refl eq_refl eq_refl).
  intros r t [<- | [<- | [<- | []]]]; cbn; intros [= <-]; reflexivity.
Defined.

(** X4: the transcript depends on a response only through the first
    alternative of each result: two successful calls whose responses
    agree, result by result, on that first alternative (or on its
    absence) return the same text, whatever the other alternatives and
    the metadata are. *)
Theorem transcribe_audio_v2_first_alternative_only
    (g g' : Transcription.globals) (client client' : SpeechClient)
    (enc enc' : AudioEncoding) (audio_content audio_content' : bytes)
    (profile_id profile_id' : string) (response response' : RecognizeResponse) :
  Transcription.speech_client g = Some client ->
  Transcription.speech_client g' = Some client' ->
  Transcription.AudioEncoding_M4A_AAC g = Some enc ->
  Transcription.AudioEncoding_M4A_AAC g' = Some enc' ->
  recognize client (Transcription.build_request g enc audio_content)
    = inr response ->
  recognize client' (Transcription.build_request g' enc' audio_content')
    = inr response' ->
  Forall2 (fun r r' => top_text r = top_text r')
    (results response) (results response') ->
  outcome (Transcription.transcribe_audio_v2 g audio_content profile_id)
  = outcome (Transcription.transcribe_audio_v2 g' audio_content' profile_id').
Proof.
  intros Hc Hc' He He' Hr Hr' Hagree.
  rewrite !transcribe_audio_v2_cases, Hc, Hc', He, He'. cbn [outcome snd].
  rewrite Hr, Hr'. unfold assemble.
  now rewrite !top_transcripts_map, (omap_top_text_agree _ _ Hagree).
Qed.

Lemma transcribe_audio_v2_first_alternative_only_witness :
  outcome
    (Transcription.transcribe_audio_v2
       (sample_globals
          (Some (sample_client
                   (inr (sample_response [["good"; "would"]; ["day"]]))))
          (Some M4A_AAC))
       sample_audio "profile-1")
  = outcome
      (Transcription.transcribe_audio_v2
         (sample_globals
            (Some (sample_client
                     (inr {| results := [sample_result ["good"];
                                         sample_result ["day"; "they"]];
                             metadata := Some 3 |})))
            (Some M4A_AAC))
         [] "profile-2").
Proof.
  apply (transcribe_audio_v2_first_alternative_only
           (sample_globals
              (Some (sample_client
                       (inr (sample_response [["good"; "would"]; ["day"]]))))
              (Some M4A_AAC))
           (sample_globals
              (Some (sample_client
                       (inr {| results := [sample_result ["good"];
                                           sample_result ["day"; "they"]];
                               metadata := Some 3 |})))
              (Some M4A_AAC))
           _ _ M4A_AAC M4A_AAC sample_audio [] "profile-1" "profile-2" _ _
           eq_refl eq_refl eq_refl eq_refl eq_refl eq_refl).
  repeat constructor.
Defined.

(** ** The endpoint, further *)

Lemma validate_api_key_type_error (secret value : string) :
  value <> "" ->
  Py.isascii value && Py.isascii secret = false ->
  Security.validate_api_key secret (Some value)
  = raise (TypeError
             "comparing strings with non-ASCII characters is not supported").
Proof.
  intros Hne Hascii. unfold Security.validate_api_key.
  destruct value as [| c value]; [congruence |].
  cbn [Py.truthy negb]. unfold Secrets.compare_digest.
  now rewrite Hascii.
Qed.

Lemma handle_rejected (app : Main.App) (x_api_key : option string)
    (profile_id : string) (audio_file : Main.UploadFile) (e : exn) :
  outcome (Security.validate_api_key
             (Config.TRANSCRIPTION_API_KEY (Main.config app)) x_api_key)
    = inl e ->
  Main.handle app (Main.POST_transcribe x_api_key profile_id audio_file)
  = (trace (Security.validate_api_key
              (Config.TRANSCRIPTION_API_KEY (Main.config app)) x_api_key),
     Main.render (inl e)).
Proof.
  intros He. rewrite handle_post.
  destruct (Security.validate_api_key _ x_api_key) as [tv [e' | v]];
    cbn [outcome trace fst snd] in He |- *; [| discriminate].
  injection He as ->. reflexivity.
Qed.

Lemma handle_accepted (app : Main.App) (x_api_key : option string)
    (profile_id : string) (audio_file : Main.UploadFile) (v : bool) :
  outcome (Security.validate_api_key
             (Config.TRANSCRIPTION_API_KEY (Main.config app)) x_api_key)
    = inr v ->
  Main.handle app (Main.POST_transcribe x_api_key profile_id audio_file)
  = ((trace (Security.validate_api_key
               (Config.TRANSCRIPTION_API_KEY (Main.config app)) x_api_key)
      ++ trace (Main.process_transcription (Main.transcription app)
                  profile_id audio_file))%list,
     Main.render
       (outcome (Main.process_transcription (Main.transcription app)
                   profile_id audio_file))).
Proof.
  intros Hv. rewrite handle_post.
  destruct (Security.validate_api_key _ x_api_key) as [tv [e' | v']];
    cbn [outcome trace fst snd] in Hv |- *; [discriminate | reflexivity].
Qed.

Lemma process_transcription_read_error (g : Transcription.globals)
    (profile_id : string) (audio_file : Main.UploadFile) (e : exn) :
  Main.read audio_file = inl e ->
  Main.process_transcription g profile_id audio_file
  = ([EvRead; EvClose],
     inl match e with
         | HTTPException _ _ => e
         | _ => HTTPException 500
                  ("An unexpected error occurred: " ++ str_exn e)
         end).
Proof.
  intros Hread. unfold Main.process_transcription. rewrite Hread.
  destruct e; reflexivity.
Qed.

Lemma process_transcription_nonempty (g : Transcription.globals)
    (profile_id : string) (audio_file : Main.UploadFile)
    (b : Byte.byte) (audio : bytes) :
  Main.read audio_file = inr (b :: audio) ->
  Main.process_transcription g profile_id audio_file
  = (EvRead
       :: trace (Transcription.transcribe_audio_v2 g (b :: audio) profile_id)
       ++ [EvClose],
     match outcome (Transcription.transcribe_audio_v2 g (b :: audio)
                      profile_id) with
     | inl e => inl e
     | inr text => inr (Main.Transcript text)
     end)%list.
Proof.
  intros Hread. unfold Main.process_transcription. rewrite Hread.
  cbn -[Transcription.transcribe_audio_v2].
  pose proof (transcribe_audio_v2_raises_500 g (b :: audio) profile_id) as H500.
  destruct (Transcription.transcribe_audio_v2 g (b :: audio) profile_id)
    as [t [e | text]]; cbn in H500 |- *.
  - destruct (H500 e eq_refl) as [detail ->]. cbn.
    now rewrite List.app_nil_r.
  - now rewrite List.app_nil_r.
Qed.

(** How a run of the handler can end when reading the upload does not
    itself raise an HTTP error. *)
Lemma process_transcription_outcome (g : Transcription.globals)
    (profile_id : string) (audio_file : Main.UploadFile) :
  (forall code detail,
     Main.read audio_file <> inl (HTTPException code detail)) ->
  (exists text,
     outcome (Main.process_transcription g profile_id audio_file)
     = inr (Main.Transcript text))
  \/ outcome (Main.process_transcription g profile_id audio_file)
     = inl (HTTPException 400 "Audio file is empty.")
  \/ exists detail,
       outcome (Main.process_transcription g profile_id audio_file)
       = inl (HTTPException 500 detail).
Proof.
  intros Hread.
  destruct (Main.read audio_file) as [e | [| b audio]] eqn:Hr.
  - rewrite (process_transcription_read_error _ _ _ _ Hr). right. right.
    destruct e; try (eexists; reflexivity).
    exfalso. eapply Hread. reflexivity.
  - rewrite (process_transcription_empty _ _ _ Hr). right. now left.
  - rewrite (process_transcription_nonempty _ _ _ _ _ Hr). cbn [outcome snd].
    destruct (outcome (Transcription.transcribe_audio_v2 g (b :: audio)
                         profile_id)) as [e | text] eqn:Ho.
    + right. right.
      destruct (transcribe_audio_v2_raises_500 _ _ _ _ Ho) as [detail ->].
      now exists detail.
    + left. now exists text.
Qed.

(** X5: with a non-empty upload the handler reads the file first, runs
    the transcription function on exactly the bytes read, and closes
    the file last; an error raised by the function leaves the handler
    unchanged, and a returned text becomes the transcript body. *)
Theorem process_transcription_passes_through (g : Transcription.globals)
    (profile_id : string) (audio_file : Main.UploadFile)
    (b : Byte.byte) (audio : bytes) :
  Main.read audio_file = inr (b :: audio) ->
  let call :=
    Transcription.transcribe_audio_v2 g (b :: audio) profile_id in
  let handler := Main.process_transcription g profile_id audio_file in
  trace handler = (EvRead :: trace call ++ [EvClose])%list
  /\ (forall e, outcome call = inl e -> outcome handler = inl e)
  /\ (forall text,
        outcome call = inr text -> outcome handler = inr (Main.Transcript text)).
Proof.
  intros Hread call handler. subst call handler.
  rewrite (process_transcription_nonempty _ _ _ _ _ Hread).
  cbn [trace outcome fst snd]. split; [reflexivity |].
  split; intros x Hx; now rewrite Hx.
Qed.

Lemma process_transcription_passes_through_witness :
  outcome
    (Main.process_transcription
       (sample_globals (Some (sample_client (inl (NotFound "gone"))))
          (Some M4A_AAC))
       "profile-1" (sample_upload (inr sample_audio)))
  = inl (HTTPException 500
           "Transcription recognizer configuration error: gone").
Proof.
  apply (proj1 (proj2 (process_transcription_passes_through
                         (sample_globals
                            (Some (sample_client (inl (NotFound "gone"))))
                            (Some M4A_AAC))
                         "profile-1" (sample_upload (inr sample_audio))
                         Byte.x00 [Byte.x01] eq_refl))).
  reflexivity.
Defined.

(** X6: when reading the upload raises, the transcription function is
    not called and the file is still closed; an exception that is not
    an HTTP error is answered as HTTP 500 with the text "An unexpected
    error occurred: " followed by the exception's message, and an HTTP
    error is raised again as it is. *)
Theorem process_transcription_read_failure (g : Transcription.globals)
    (profile_id : string) (audio_file : Main.UploadFile) (e : exn) :
  Main.read audio_file = inl e ->
  let handler := Main.process_transcription g profile_id audio_file in
  trace handler = [EvRead; EvClose]
  /\ count is_transcribe (trace handler) = 0
  /\ ((forall code detail, e <> HTTPException code detail) ->
      outcome handler
      = inl (HTTPException 500
               ("An unexpected error occurred: " ++ str_exn e)))
  /\ (forall code detail,
        e = HTTPException code detail -> outcome handler = inl e).
Proof.
  intros Hread handler. subst handler.
  rewrite (process_transcription_read_error _ _ _ _ Hread).
  cbn [trace outcome fst snd]. repeat split.
  - intros Hne. destruct e; try reflexivity.
    exfalso. eapply Hne. reflexivity.
  - intros code detail ->. reflexivity.
Qed.

Lemma process_transcription_read_failure_witness :
  outcome
    (Main.process_transcription
       (sample_globals (Some (sample_client (inr (sample_response [["hi"]]))))
          (Some M4A_AAC))
       "profile-1" (sample_upload (inl (OtherException "disk error"))))
  = inl (HTTPException 500 "An unexpected error occurred: disk error").
Proof.
  apply (proj1 (proj2 (proj2
           (process_transcription_read_failure
              (sample_globals
                 (Some (sample_client (inr (sample_response [["hi"]]))))
                 (Some M4A_AAC))
              "profile-1" (sample_upload (inl (OtherException "disk error")))
              (OtherException "disk error") eq_refl)))).
  intros code detail. discriminate.
Defined.

(** X7: a request without a key value (header absent or empty) is
    answered 401 with the missing-key message whatever its form fields
    are, and nothing else happens: the upload is neither read nor
    closed and no comparison is made. *)
Theorem missing_key_short_circuits (app : Main.App)
    (x_api_key : option string) (profile_id : string)
    (audio_file : Main.UploadFile) :
  Security.falsy x_api_key = true ->
  Main.handle app (Main.POST_transcribe x_api_key profile_id audio_file)
  = ([], {| Main.status := 401;
            Main.payload :=
              Main.Detail "Missing API Key in X-API-Key header" |}).
Proof.
  intros Hf.
  rewrite (handle_rejected app x_api_key profile_id audio_file
             Security.missing_key);
    now rewrite (validate_api_key_falsy _ _ Hf).
Qed.

Lemma missing_key_short_circuits_witness :
  Main.handle sample_app
    (Main.POST_transcribe (Some "") "profile-1"
       (sample_upload (inr sample_audio)))
  = ([], {| Main.status := 401;
            Main.payload :=
              Main.Detail "Missing API Key in X-API-Key header" |}).
Proof.
  exact (missing_key_short_circuits sample_app (Some "") "profile-1"
           (sample_upload (inr sample_audio)) eq_refl).
Defined.

(** X8: a non-empty ASCII key value that differs from the (ASCII)
    configured key is answered 401 with the invalid-key message before
    the upload is touched: no read, no transcription call. *)
Theorem wrong_key_rejected_before_read (app : Main.App) (value : string)
    (profile_id : string) (audio_file : Main.UploadFile) :
  value <> "" ->
  Py.isascii value = true ->
  Py.isascii (Config.TRANSCRIPTION_API_KEY (Main.config app)) = true ->
  value <> Config.TRANSCRIPTION_API_KEY (Main.config app) ->
  let answer :=
    Main.handle app (Main.POST_transcribe (Some value) profile_id audio_file)
  in
  snd answer
  = {| Main.status := 401; Main.payload := Main.Detail "Invalid API Key" |}
  /\ count is_read (fst answer) = 0
  /\ count is_transcribe (fst answer) = 0.
Proof.
  intros Hne Hv Hs Hdiff answer. subst answer.
  rewrite (handle_rejected app (Some value) profile_id audio_file
             Security.invalid_key).
  - cbn [fst snd]. split; [reflexivity |].
    split; now apply validate_api_key_trace.
  - rewrite (validate_api_key_ascii _ _ Hne Hv Hs). cbn [outcome snd].
    destruct (String.eqb_spec value
                (Config.TRANSCRIPTION_API_KEY (Main.config app)));
      [contradiction | reflexivity].
Qed.

Lemma wrong_key_rejected_before_read_witness :
  snd (Main.handle sample_app
         (Main.POST_transcribe (Some "guess") "profile-1"
            (sample_upload (inr sample_audio))))
  = {| Main.status := 401; Main.payload := Main.Detail "Invalid API Key" |}.
Proof.
  apply (wrong_key_rejected_before_read sample_app "guess" "profile-1"
           (sample_upload (inr sample_audio)));
    [discriminate | reflexivity | reflexivity | discriminate].
Defined.

(** X9: when the key value or the configured key has a character above
    127, the comparison raises [TypeError]; the request is answered
    with the framework's plain 500, not 401, and the upload is not
    touched. *)
Theorem non_ascii_key_is_server_error (app : Main.App) (value : string)
    (profile_id : string) (audio_file : Main.UploadFile) :
  value <> "" ->
  Py.isascii value
  && Py.isascii (Config.TRANSCRIPTION_API_KEY (Main.config app)) = false ->
  Main.handle app (Main.POST_transcribe (Some value) profile_id audio_file)
  = ([], {| Main.status := 500; Main.payload := Main.InternalServerError |}).
Proof.
  intros Hne Hascii.
  rewrite (handle_rejected app (Some value) profile_id audio_file
             (TypeError
                "comparing strings with non-ASCII characters is not supported"));
    now rewrite (validate_api_key_type_error _ _ Hne Hascii).
Qed.

Lemma non_ascii_key_is_server_error_witness :
  Main.handle sample_app
    (Main.POST_transcribe (Some (String (ascii_of_nat 233) "")) "profile-1"
       (sample_upload (inr sample_audio)))
  = ([], {| Main.status := 500; Main.payload := Main.InternalServerError |}).
Proof.
  apply (non_ascii_key_is_server_error sample_app
           (String (ascii_of_nat 233) "") "profile-1"
           (sample_upload (inr sample_audio)));
    [discriminate | reflexivity].
Defined.

(** X10: an empty configured key is accepted at start-up but locks the
    endpoint: every transcription request is then answered 401 or 500,
    never 200, and its upload is never read. *)
Theorem empty_secret_locks_endpoint (app : Main.App)
    (x_api_key : option string) (profile_id : string)
    (audio_file : Main.UploadFile) :
  Config.TRANSCRIPTION_API_KEY (Main.config app) = "" ->
  let answer :=
    Main.handle app (Main.POST_transcribe x_api_key profile_id audio_file) in
  (Main.status (snd answer) = 401 \/ Main.status (snd answer) = 500)
  /\ count is_read (fst answer) = 0.
Proof.
  intros Hkey answer. subst answer.
  assert (Hrej : exists e,
             outcome (Security.validate_api_key
                        (Config.TRANSCRIPTION_API_KEY (Main.config app))
                        x_api_key) = inl e
             /\ (Main.status (Main.render (inl e)) = 401
                 \/ Main.status (Main.render (inl e)) = 500)).
  { rewrite Hkey. destruct x_api_key as [[| c value] |].
    - eexists. split; [reflexivity | now left].
    - destruct (Py.isascii (String c value)) eqn:Hv.
      + rewrite (validate_api_key_ascii "" (String c value));
          [| discriminate | exact Hv | reflexivity].
        eexists. split; [reflexivity | now left].
      + rewrite (validate_api_key_type_error "" (String c value));
          [| discriminate | now rewrite Hv].
        eexists. split; [reflexivity | now right].
    - eexists. split; [reflexivity | now left]. }
  destruct Hrej as (e & He & Hstatus).
  rewrite (handle_rejected _ _ _ _ _ He). cbn [fst snd].
  split; [exact Hstatus | now apply validate_api_key_trace].
Qed.

Lemma empty_secret_locks_endpoint_witness :
  Main.status
    (snd (Main.handle
            {| Main.config :=
                 {| Config.GOOGLE_APPLICATION_CREDENTIALS := None;
                    Config.GOOGLE_SPEECH_RECOGNIZER_NAME := "r";
                    Config.TRANSCRIPTION_API_KEY := "" |};
               Main.transcription := Main.transcription sample_app |}
            (Main.POST_transcribe (Some "") "profile-1"
               (sample_upload (inr sample_audio))))) = 401
  \/ Main.status
       (snd (Main.handle
               {| Main.config :=
                    {| Config.GOOGLE_APPLICATION_CREDENTIALS := None;
                       Config.GOOGLE_SPEECH_RECOGNIZER_NAME := "r";
                       Config.TRANSCRIPTION_API_KEY := "" |};
                  Main.transcription := Main.transcription sample_app |}
               (Main.POST_transcribe (Some "") "profile-1"
                  (sample_upload (inr sample_audio))))) = 500.
Proof.
  exact (proj1 (empty_secret_locks_endpoint
                  {| Main.config :=
                       {| Config.GOOGLE_APPLICATION_CREDENTIALS := None;
                          Config.GOOGLE_SPEECH_RECOGNIZER_NAME := "r";
                          Config.TRANSCRIPTION_API_KEY := "" |};
                     Main.transcription := Main.transcription sample_app |}
                  (Some "") "profile-1" (sample_upload (inr sample_audio))
                  eq_refl)).
Defined.

(** X11: a health request, and every transcription request that
    carries both form fields (with or without a key header) and whose
    upload read does not itself raise an HTTP error, is answered with
    200, 400, 401 or 500; in particular no file name or content type
    of the upload is answered 415.  Requests that lack a form field are
    answered by the framework without running the handler and are not
    covered. *)
Theorem endpoint_status_codes (app : Main.App) (req : Main.Request) :
  match req with
  | Main.GET_health => True
  | Main.POST_transcribe _ _ audio_file =>
      forall code detail,
        Main.read audio_file <> inl (HTTPException code detail)
  end ->
  documented_status (Main.status (snd (Main.handle app req))) = true.
Proof.
  destruct req as [| x_api_key profile_id audio_file]; [reflexivity |].
  intros Hread.
  destruct (outcome (Security.validate_api_key
                       (Config.TRANSCRIPTION_API_KEY (Main.config app))
                       x_api_key)) as [e | v] eqn:Hout.
  - rewrite (handle_rejected _ _ _ _ _ Hout). cbn [snd].
    revert Hout. destruct x_api_key as [[| c value] |];
      try (intros [= <-]; reflexivity).
    destruct (Py.isascii (String c value)
              && Py.isascii (Config.TRANSCRIPTION_API_KEY (Main.config app)))
      eqn:Hascii.
    + apply andb_prop in Hascii as [Hv Hs].
      rewrite (validate_api_key_ascii _ (String c value));
        [| discriminate | exact Hv | exact Hs].
      cbn [outcome snd]. destruct (String.eqb _ _); intros [= <-].
      reflexivity.
    + rewrite (validate_api_key_type_error _ (String c value));
        [| discriminate | exact Hascii].
      intros [= <-]. reflexivity.
  - rewrite (handle_accepted _ _ _ _ _ Hout). cbn [snd].
    destruct (process_transcription_outcome (Main.transcription app)
                profile_id audio_file Hread)
      as [[text ->] | [-> | [detail ->]]]; reflexivity.
Qed.

Lemma endpoint_status_codes_witness :
  documented_status
    (Main.status
       (snd (Main.handle sample_app
               (Main.POST_transcribe (Some "s3cret") "profile-1"
                  {| Main.filename := Some "notes.txt";
                     Main.content_type := Some "text/plain";
                     Main.read := inr sample_audio |})))) = true.
Proof.
  apply (endpoint_status_codes sample_app
           (Main.POST_transcribe (Some "s3cret") "profile-1"
              {| Main.filename := Some "notes.txt";
                 Main.content_type := Some "text/plain";
                 Main.read := inr sample_audio |})).
  intros code detail. discriminate.
Defined.

(** X12: a request whose key is accepted, whose upload reads as
    non-empty bytes and whose provider call returns a response is
    answered 200 with the assembled transcript (possibly empty).  After
    the key comparison the service reads the upload, enters the
    transcription function, makes one provider call carrying the bytes
    read, and closes the upload, in that order. *)
Theorem transcribe_request_succeeds (app : Main.App)
    (x_api_key : option string) (profile_id : string)
    (audio_file : Main.UploadFile) (v : bool)
    (b : Byte.byte) (audio : bytes)
    (client : SpeechClient) (enc : AudioEncoding)
    (response : RecognizeResponse) :
  outcome (Security.validate_api_key
             (Config.TRANSCRIPTION_API_KEY (Main.config app)) x_api_key)
    = inr v ->
  Main.read audio_file = inr (b :: audio) ->
  Transcription.speech_client (Main.transcription app) = Some client ->
  Transcription.AudioEncoding_M4A_AAC (Main.transcription app) = Some enc ->
  recognize client
    (Transcription.build_request (Main.transcription app) enc (b :: audio))
    = inr response ->
  Main.handle app (Main.POST_transcribe x_api_key profile_id audio_file)
  = ((trace (Security.validate_api_key
               (Config.TRANSCRIPTION_API_KEY (Main.config app)) x_api_key)
      ++ [EvRead;
          EvTranscribe (b :: audio) profile_id;
          EvRecognize
            (Transcription.build_request (Main.transcription app) enc
               (b :: audio));
          EvClose])%list,
     {| Main.status := 200;
        Main.payload :=
          Main.Transcript
            (Py.strip
               (Py.join " "
                  (Transcription.top_transcripts (results response)))) |}).
Proof.
  intros Hkey Hread Hc Henc Hcall.
  rewrite (handle_accepted _ _ _ _ _ Hkey).
  rewrite (process_transcription_nonempty _ _ _ _ _ Hread).
  rewrite transcribe_audio_v2_cases, Hc, Henc.
  cbn [trace outcome fst snd]. rewrite Hcall. reflexivity.
Qed.

Lemma transcribe_request_succeeds_witness :
  snd (Main.handle sample_app
         (Main.POST_transcribe (Some "s3cret") "profile-1"
            (sample_upload (inr sample_audio))))
  = {| Main.status := 200; Main.payload := Main.Transcript "hello" |}.
Proof.
  exact (f_equal snd
           (transcribe_request_succeeds sample_app (Some "s3cret") "profile-1"
              (sample_upload (inr sample_audio)) true Byte.x00 [Byte.x01]
              _ M4A_AAC _ eq_refl eq_refl eq_refl eq_refl eq_refl)).
Defined.

(** X13: start-up succeeds exactly when both required variables are
    present in the environment, empty values included, whatever the
    client constructor does and whether or not a credentials path is
    set.  When the recognizer name is absent the error names that
    variable, even if the key is absent too; a started application
    carries the credentials path as found and the client handle the
    constructor gave, if any. *)
Theorem startup_succeeds_iff (environ : gmap string string)
    (ctor : exn + SpeechClient) (m4a_aac : option AudioEncoding) :
  ((exists app, Main.startup environ ctor m4a_aac = inr app)
   <-> is_Some (environ !! "GOOGLE_SPEECH_RECOGNIZER_NAME")
       /\ is_Some (environ !! "TRANSCRIPTION_API_KEY"))
  /\ (environ !! "GOOGLE_SPEECH_RECOGNIZER_NAME" = None ->
      Main.startup environ ctor m4a_aac
      = inl (EnvironmentError
               "Missing required environment variable: 'GOOGLE_SPEECH_RECOGNIZER_NAME'"))
  /\ (forall app,
        Main.startup environ ctor m4a_aac = inr app ->
        Config.GOOGLE_APPLICATION_CREDENTIALS (Main.config app)
        = environ !! "GOOGLE_APPLICATION_CREDENTIALS"
        /\ Transcription.speech_client (Main.transcription app)
           = match ctor with inr client => Some client | inl _ => None end
        /\ Transcription.GOOGLE_SPEECH_RECOGNIZER_NAME (Main.transcription app)
           = Config.GOOGLE_SPEECH_RECOGNIZER_NAME (Main.config app)).
Proof.
  unfold Main.startup, Config.load, Config.get_env_variable, Py.getenv.
  destruct (environ !! "GOOGLE_SPEECH_RECOGNIZER_NAME") as [name |].
  - destruct (environ !! "TRANSCRIPTION_API_KEY") as [key |].
    + split; [| split].
      * split; [intros _; split; eexists; reflexivity
               | intros _; eexists; reflexivity].
      * discriminate.
      * intros app [= <-]. cbn.
        destruct (environ !! "GOOGLE_APPLICATION_CREDENTIALS");
          repeat split; destruct ctor; reflexivity.
    + split; [| split].
      * split; [intros [app H]; discriminate
               | intros [_ [x Hx]]; discriminate].
      * discriminate.
      * intros app H; discriminate.
  - split; [| split].
    + split; [intros [app H]; discriminate
             | intros [[x Hx] _]; discriminate].
    + reflexivity.
    + intros app H; discriminate.
Qed.

Lemma startup_succeeds_iff_witness :
  exists app,
    Main.startup
      (<["GOOGLE_SPEECH_RECOGNIZER_NAME" := "r"]>
         (<["TRANSCRIPTION_API_KEY" := ""]> ∅))
      (inl (OtherException "no credentials")) None
    = inr app.
Proof.
  apply (proj2 (proj1 (startup_succeeds_iff
                         (<["GOOGLE_SPEECH_RECOGNIZER_NAME" := "r"]>
                            (<["TRANSCRIPTION_API_KEY" := ""]> ∅))
                         (inl (OtherException "no credentials")) None))).
  split; eexists; reflexivity.
Defined.

(** ** From the environment to the pipeline *)

Lemma validate_api_key_events (secret : string) (header : option string)
    (ev : event) :
  In ev (trace (Security.validate_api_key secret header)) ->
  (exists same, ev = EvLenCmp same) \/ ev = EvXorStep.
Proof.
  destruct header as [[| c value] |]; try (intros []).
  destruct (Py.isascii (String c value) && Py.isascii secret) eqn:Hascii.
  - apply andb_prop in Hascii as [Hv Hs].
    rewrite (validate_api_key_ascii _ (String c value));
      [| discriminate | exact Hv | exact Hs].
    cbn [trace fst]. intros [<- | Hin]; [left; eexists; reflexivity |].
    right. exact (repeat_spec _ _ _ Hin).
  - rewrite (validate_api_key_type_error _ (String c value));
      [| discriminate | exact Hascii].
    intros [].
Qed.

Lemma transcribe_audio_v2_request (g : Transcription.globals)
    (audio_content : bytes) (profile_id : string) (req : RecognizeRequest) :
  In (EvRecognize req)
     (trace (Transcription.transcribe_audio_v2 g audio_content profile_id)) ->
  exists enc,
    Transcription.AudioEncoding_M4A_AAC g = Some enc
    /\ req = Transcription.build_request g enc audio_content.
Proof.
  rewrite transcribe_audio_v2_cases.
  destruct (Transcription.speech_client g) as [client |].
  - destruct (Transcription.AudioEncoding_M4A_AAC g) as [enc |];
      cbn [trace fst].
    + intros [H | [H | []]]; [discriminate |].
      injection H as <-. now exists enc.
    + intros [H | []]; discriminate.
  - cbn [trace fst]. intros [H | []]; discriminate.
Qed.

Lemma process_transcription_request (g : Transcription.globals)
    (profile_id : string) (audio_file : Main.UploadFile)
    (req : RecognizeRequest) :
  In (EvRecognize req)
     (trace (Main.process_transcription g profile_id audio_file)) ->
  recognizer req = Transcription.GOOGLE_SPEECH_RECOGNIZER_NAME g
  /\ Main.read audio_file = inr (content req).
Proof.
  destruct (Main.read audio_file) as [e | [| b audio]] eqn:Hread.
  - rewrite (process_transcription_read_error _ _ _ _ Hread).
    cbn [trace fst]. intros [H | [H | []]]; discriminate.
  - rewrite (process_transcription_empty _ _ _ Hread).
    cbn [trace fst]. intros [H | [H | []]]; discriminate.
  - rewrite (process_transcription_nonempty _ _ _ _ _ Hread).
    cbn [trace fst]. intros [H | Hin]; [discriminate |].
    apply List.in_app_or in Hin as [Hin | [H | []]]; [| discriminate].
    apply transcribe_audio_v2_request in Hin as (enc & _ & ->).
    split; reflexivity.
Qed.

(** X14: what start-up read from the environment is what the pipeline
    uses.  Every provider request the service sends names the recognizer
    found in [GOOGLE_SPEECH_RECOGNIZER_NAME] and carries exactly the
    bytes read from the upload; and, for an ASCII non-empty
    [TRANSCRIPTION_API_KEY], a non-empty ASCII key value is accepted
    exactly when it equals that variable's value. *)
Theorem environment_reaches_pipeline (environ : gmap string string)
    (ctor : exn + SpeechClient) (m4a_aac : option AudioEncoding)
    (app : Main.App) (name key : string) :
  Main.startup environ ctor m4a_aac = inr app ->
  environ !! "GOOGLE_SPEECH_RECOGNIZER_NAME" = Some name ->
  environ !! "TRANSCRIPTION_API_KEY" = Some key ->
  (forall x_api_key profile_id audio_file req,
     In (EvRecognize req)
        (fst (Main.handle app
                (Main.POST_transcribe x_api_key profile_id audio_file))) ->
     recognizer req = name /\ Main.read audio_file = inr (content req))
  /\ (key <> "" -> Py.isascii key = true ->
      forall value,
        value <> "" -> Py.isascii value = true ->
        (exists v,
           outcome (Security.validate_api_key
                      (Config.TRANSCRIPTION_API_KEY (Main.config app))
                      (Some value)) = inr v)
        <-> value = key).
Proof.
  intros Hstart Hname Hkey. revert Hstart.
  unfold Main.startup, Config.load, Config.get_env_variable, Py.getenv.
  rewrite Hname, Hkey. intros [= <-]. cbn [Main.config Main.transcription
    Config.TRANSCRIPTION_API_KEY]. split.
  - intros x_api_key profile_id audio_file req. rewrite handle_post.
    cbn [Main.config Main.transcription Config.TRANSCRIPTION_API_KEY].
    pose proof (validate_api_key_events key x_api_key (EvRecognize req)) as Hv.
    destruct (Security.validate_api_key key x_api_key) as [tv [e | v]];
      cbn [trace fst] in Hv |- *.
    + intros Hin. destruct (Hv Hin) as [[same H] | H]; discriminate.
    + intros [Hin | Hin]%List.in_app_or.
      * destruct (Hv Hin) as [[same H] | H]; discriminate.
      * apply process_transcription_request in Hin. exact Hin.
  - intros Hne Hascii value Hvne Hvascii.
    rewrite (validate_api_key_ascii _ _ Hvne Hvascii Hascii).
    cbn [outcome snd].
    destruct (String.eqb_spec value key) as [-> | Hdiff].
    + split; [reflexivity | intros _; eexists; reflexivity].
    + split; [intros [v H]; discriminate | contradiction].
Qed.

Lemma environment_reaches_pipeline_witness :
  (exists v,
     outcome (Security.validate_api_key
                (Config.TRANSCRIPTION_API_KEY sample_config)
                (Some "s3cret")) = inr v)
  <-> "s3cret" = "s3cret".
Proof.
  apply (proj2 (environment_reaches_pipeline sample_environ
                  (inl (OtherException "no credentials")) (Some M4A_AAC)
                  {| Main.config := sample_config;
                     Main.transcription :=
                       sample_globals None (Some M4A_AAC) |}
                  "projects/p/locations/global/recognizers/r" "s3cret"
                  eq_refl eq_refl eq_refl));
    [discriminate | reflexivity | discriminate | reflexivity].
Defined.
